(** * GAEVIC: eviction case submission, storage and lifecycle

    A shallow embedding of the Python sources

      - [scripts/generate_docs.py]    (render context of the demand notice)
      - [main.py]                     (local record store, submission, status)
      - [dashboard_api.py]            (clerk dashboard: updates, CSV, reports)
      - [backend/github_submitter.py] (remote contents-API backend)

    Part I holds the model, Part II the properties. *)

From Stdlib Require Import ZArith Ascii String List Lia.
From stdpp Require Import base option list strings gmap pretty sorting.

Set Warnings "-register-all".
Open Scope string_scope.
Open Scope list_scope.

(* ================================================================= *)
(** * Part I: the model *)
(* ================================================================= *)

(** ** Python values and exceptions *)

(** Values as [json.load] produces them.  Numbers are kept as integers:
    no claim below depends on the rounding of a float. *)
Inductive jval : Type :=
| JNull
| JBool (b : bool)
| JNum (n : Z)
| JStr (s : string)
| JArr (l : list jval)
| JObj (m : gmap string jval).

Global Instance jval_eq_dec : EqDecision jval.
Proof.
  refine (fix go (a b : jval) {struct a} : Decision (a = b) :=
    let _ : EqDecision jval := @go in
    match a, b with
    | JNull, JNull => left _
    | JBool x, JBool y => cast_if (decide (x = y))
    | JNum x, JNum y => cast_if (decide (x = y))
    | JStr x, JStr y => cast_if (decide (x = y))
    | JArr x, JArr y => cast_if (decide (x = y))
    | JObj x, JObj y => cast_if (decide (x = y))
    | _, _ => right _
    end); abstract congruence.
Defined.

(** A Python dict with string keys. *)
Abbreviation dict := (gmap string jval).

(** [d.get(k)]: the value, or [None]. *)
Definition dict_get (d : dict) (k : string) : jval := default JNull (d !! k).

(** [a == b] on parsed JSON: exact whenever one side is a string, as in
    every comparison of the code below on string ids and statuses. *)
Definition py_eq (a b : jval) : bool := bool_decide (a = b).

(** Truthiness, as in [if v:] / [if not v:]. *)
Definition truthy (v : jval) : bool :=
  match v with
  | JNull => false
  | JBool b => b
  | JNum n => negb (n =? 0)%Z
  | JStr s => negb (bool_decide (s = EmptyString))
  | JArr l => negb (bool_decide (l = []))
  | JObj m => negb (bool_decide (m = ∅))
  end.

(** Truthiness of an [Optional[str]]. *)
Definition str_truthy (o : option string) : bool :=
  match o with
  | Some s => negb (bool_decide (s = EmptyString))
  | None => false
  end.

(** An [Optional[str]] stored into a dict. *)
Definition of_opt_str (o : option string) : jval :=
  match o with Some s => JStr s | None => JNull end.

Inductive exn : Type :=
| KeyError (key : string)
| ValueError (what : string)
| TypeError (what : string)
| AttributeError (what : string)
| FileNotFoundError (path : string)
| ConnectionError (what : string)
| HTTPError (status : Z)                          (* requests: raise_for_status *)
| HTTPException (status : Z) (detail : string).   (* fastapi *)

Inductive result (A : Type) : Type :=
| Ok (a : A)
| Raise (e : exn).
Arguments Ok {A} a.
Arguments Raise {A} e.

Definition rbind {A B} (r : result A) (k : A → result B) : result B :=
  match r with
  | Ok a => k a
  | Raise e => Raise e
  end.

Declare Scope py_scope.
Delimit Scope py_scope with py.
Notation "'let?' x := e 'in' k" := (rbind e (fun x => k))
  (at level 10, x pattern, e at level 100, k at level 200) : py_scope.
Open Scope py_scope.

(** [d[k]]: raises [KeyError] when the key is missing. *)
Definition dict_item (d : dict) (k : string) : result jval :=
  match d !! k with
  | Some v => Ok v
  | None => Raise (KeyError k)
  end.

(** Serialised data is kept symbolic: a blob is raw bytes, the JSON text of
    a value, or the base64 encoding of another blob. *)
Inductive blob : Type :=
| Bytes (s : string)
| JsonText (v : jval)       (* json.dumps(v, indent=2) *)
| Base64 (b : blob).        (* base64.b64encode(b) *)

Global Instance blob_eq_dec : EqDecision blob.
Proof. solve_decision. Defined.

Definition b64encode (b : blob) : blob := Base64 b.

(** [base64.b64decode]: the encoding of a blob decodes to that blob.
    Any other text is taken to be refused, though the decoder of Python
    skips the characters outside its alphabet and so accepts some of it;
    [never_decodes] below names text it refuses in any case. *)
Definition b64decode (b : blob) : result blob :=
  match b with
  | Base64 x => Ok x
  | _ => Raise (ValueError "binascii.Error")
  end.

Definition json_dumps (v : jval) : blob := JsonText v.

Definition json_loads (b : blob) : result jval :=
  match b with
  | JsonText v => Ok v
  | _ => Raise (ValueError "JSONDecodeError")
  end.

(** Library functions the code calls and this development does not look
    into. *)
Class PyLib : Type := {
  (* str(v), as an f-string formats a value *)
  py_str : jval → string;
  (* datetime.fromisoformat(s.replace('Z', '+00:00')).strftime("%Y-%m"),
     None when fromisoformat raises ValueError *)
  iso_month : string → option string
}.

(** [str(e)], as the endpoints put it into the detail of an error. *)
Class ExnText : Type := {
  str_exn : exn → string
}.

(** One reading of [datetime.now()]; an operation that reads the clock
    more than once is given the same reading each time. *)
Record clock : Type := {
  now_year : Z;            (* datetime.now().year *)
  now_timestamp : Z;       (* int(datetime.now().timestamp()) *)
  now_isoformat : string;  (* datetime.now().isoformat() *)
  now_date : string        (* datetime.now().date().isoformat() *)
}.

Definition newline : string := String (Ascii.ascii_of_nat 10) EmptyString.

(** First index [i] with [pred cases[i]], as
    [next((i for i, c in enumerate(cases) if ...), None)]. *)
Fixpoint find_index {A} (pred : A → bool) (l : list A) : option nat :=
  match l with
  | [] => None
  | x :: xs => if pred x then Some 0 else S <$> find_index pred xs
  end.

(* ----------------------------------------------------------------- *)
(** ** scripts/generate_docs.py *)

Module GenerateDocs.

(** The keyword arguments of [template.render] in
    [generate_eviction_notice]. *)
Record render_context : Type := {
  case : dict;
  court : dict;
  generated_date : string;
  georgia_code : string;
  notice_period : string
}.

Definition court_info : dict :=
  <["name" := JStr "Houston County Magistrate Court"]>
  (<["address" := JStr "202 Carl Vinson Parkway, Warner Robins, GA 31088"]>
  (<["phone" := JStr "(478) 542-2100"]>
  (<["chief_magistrate" := JStr "Hon. James W. Smith"]>
  (<["filing_fee" := JStr "$81.00"]> ∅)))).

(** [today] is [datetime.now().strftime("%B %d, %Y")]. *)
Definition generate_eviction_notice (case_data : dict) (today : string)
  : render_context :=
  {| case := case_data;
     court := court_info;
     generated_date := today;
     georgia_code := "OCGA § 44-7-50";
     notice_period :=
       if py_eq (dict_get case_data "lease_type") (JStr "month-to-month")
       then "7 days" else "30 days" |}.

End GenerateDocs.

(* ----------------------------------------------------------------- *)
(** ** The local record store shared by main.py and dashboard_api.py *)

(** A directory [cases/<case_id>/]. *)
Record case_folder : Type := {
  case_data_json : option dict;       (* case_data.json, None = no such file *)
  other_files : gmap string blob      (* every other file, by name *)
}.

Record local_store : Type := {
  cases_db : option (list dict);      (* data/cases.json, None = no such file *)
  case_dirs : gmap string case_folder (* cases/, by directory name *)
}.

Definition empty_folder : case_folder :=
  {| case_data_json := None; other_files := ∅ |}.

Definition set_cases_db (cases : list dict) (st : local_store) : local_store :=
  {| cases_db := Some cases; case_dirs := case_dirs st |}.

Definition set_case_dir (case_id : string) (f : case_folder) (st : local_store)
  : local_store :=
  {| cases_db := cases_db st; case_dirs := <[case_id := f]> (case_dirs st) |}.

(** [case_dir.mkdir(exist_ok=True)] *)
Definition mkdir_exist_ok (case_id : string) (st : local_store) : local_store :=
  match case_dirs st !! case_id with
  | Some _ => st
  | None => set_case_dir case_id empty_folder st
  end.

Definition write_case_json (case_id : string) (d : dict) (st : local_store)
  : local_store :=
  let f := default empty_folder (case_dirs st !! case_id) in
  set_case_dir case_id
    {| case_data_json := Some d; other_files := other_files f |} st.

Definition write_case_file (case_id name : string) (b : blob) (st : local_store)
  : local_store :=
  let f := default empty_folder (case_dirs st !! case_id) in
  set_case_dir case_id
    {| case_data_json := case_data_json f;
       other_files := <[name := b]> (other_files f) |} st.

(** Every character is ASCII, and none is NUL or the separator [/]. *)
Fixpoint plain_chars (s : string) : bool :=
  match s with
  | EmptyString => true
  | String a rest =>
      let n := Ascii.nat_of_ascii a in
      (0 <? n)%nat && (n <? 128)%nat && negb (n =? 47)%nat && plain_chars rest
  end.

(** A file name that [case_dir / name] keeps a direct child of the case
    directory and that a POSIX file system takes as it is: ASCII without
    separator or NUL, not empty, not [.] or [..], at most 255 bytes. *)
Definition plain_name (name : string) : bool :=
  plain_chars name
  && negb (bool_decide (name = EmptyString))
  && negb (bool_decide (name = ".")) && negb (bool_decide (name = ".."))
  && (String.length name <=? 255)%nat.

(** What [open(case_dir / name, 'wb')] and the write that follows do
    with a name that is not plain. The path then runs through other
    directories ([a/b] needs a directory [a], [../x] is the directory of
    the cases, a leading [/] drops the case directory altogether), so
    that the call may raise or write somewhere else, as the directories
    around the case directory decide. *)
Class FileSystem : Type := {
  write_elsewhere :
    string → string → blob → local_store → result unit * local_store
}.

(* ----------------------------------------------------------------- *)
(** ** main.py *)

Module Main.

Record CaseSubmission : Type := {
  case_data : dict;
  signature_data : option string;
  documents : list (string * blob)   (* doc_type -> base64 document *)
}.

(** [next((i for i, c in enumerate(cases)
          if c.get("case_id") == case_data["case_id"]), None)]:
    the generator reads [case_data["case_id"]] at the first record it
    visits, so that an empty case list never asks for the key. *)
Definition find_existing (case_data : dict) (cases : list dict)
  : result (option nat) :=
  match cases with
  | [] => Ok None
  | _ :: _ =>
      let? key := dict_item case_data "case_id" in
      Ok (find_index (fun c => py_eq (dict_get c "case_id") key) cases)
  end.

(** [update_case_database]: add or update the case in data/cases.json. *)
Definition update_case_database (case_data : dict) (st : local_store)
  : result unit * local_store :=
  let cases := default [] (cases_db st) in
  match find_existing case_data cases with
  | Raise e => (Raise e, st)
  | Ok (Some existing_index) =>
      (Ok tt, set_cases_db (<[existing_index := case_data]> cases) st)
  | Ok None => (Ok tt, set_cases_db (cases ++ [case_data]) st)
  end.

Definition allocate_case_id (now : clock) (uuid4 : string) : string :=
  let random_num := String.substring 0 8 uuid4 in
  "HOU-" +:+ pretty (now_year now) +:+ "-" +:+ pretty (now_timestamp now)
    +:+ "-" +:+ random_num.

Record submit_response : Type := {
  success : bool;
  case_id : string;
  message : string;
  next_steps : string
}.

Section WithFileSystem.
Context `{FileSystem} `{ExnText}.

(** [with open(case_dir / name, 'wb') as f: f.write(pdf_data)] *)
Definition write_document (case_id name : string) (pdf_data : blob)
    (st : local_store) : result unit * local_store :=
  if plain_name name then (Ok tt, write_case_file case_id name pdf_data st)
  else write_elsewhere case_id name pdf_data st.

(** The loop writing [<doc_type>.pdf] files; it stops at the first
    document that does not decode or cannot be written. *)
Fixpoint save_documents (case_id : string) (docs : list (string * blob))
    (st : local_store) : result unit * local_store :=
  match docs with
  | [] => (Ok tt, st)
  | (doc_type, doc_base64) :: rest =>
      match b64decode doc_base64 with
      | Raise e => (Raise e, st)
      | Ok pdf_data =>
          match write_document case_id (doc_type +:+ ".pdf") pdf_data st with
          | (Raise e, st) => (Raise e, st)
          | (Ok _, st) => save_documents case_id rest st
          end
      end
  end.

(** [POST /api/submit-case].  [uuid4] is [str(uuid.uuid4())]. *)
Definition submit_case (submission : CaseSubmission) (now : clock)
    (uuid4 : string) (st : local_store)
  : result submit_response * local_store :=
  let case_id := allocate_case_id now uuid4 in
  let case_data :=
    <["signature_data" := of_opt_str (signature_data submission)]>
    (<["status" := JStr "submitted"]>
    (<["submitted_at" := JStr (now_isoformat now)]>
    (<["case_id" := JStr case_id]> (case_data submission)))) in
  let st := mkdir_exist_ok case_id st in
  let st := write_case_json case_id case_data st in
  let failed e st :=
    (Raise (HTTPException 500 ("Submission failed: " +:+ str_exn e)), st) in
  match save_documents case_id (documents submission) st with
  | (Raise e, st) => failed e st
  | (Ok _, st) =>
      match update_case_database case_data st with
      | (Raise e, st) => failed e st
      | (Ok _, st) =>
          (Ok {| success := true;
                 case_id := case_id;
                 message := "Case submitted successfully";
                 next_steps := "Your case is pending review. You will receive an email with further instructions." |},
           st)
      end
  end.

End WithFileSystem.

(** The three assignments of [update_case_status] on one record. *)
Definition apply_status (status : string) (notes : option string)
    (now : clock) (c : dict) : dict :=
  let c := <["status" := JStr status]> c in
  let c := <["updated_at" := JStr (now_isoformat now)]> c in
  if str_truthy notes then <["admin_notes" := of_opt_str notes]> c else c.

Record status_response : Type := {
  st_success : bool;
  st_case_id : string;
  st_status : string
}.

(** Rewrite [case_data.json] of an existing case directory with [f];
    a missing file raises from [open]. *)
Definition update_case_json (case_id : string) (f : dict → dict)
    (st : local_store) : result unit * local_store :=
  match case_dirs st !! case_id with
  | None => (Ok tt, st)
  | Some folder =>
      match case_data_json folder with
      | None => (Raise (FileNotFoundError "case_data.json"), st)
      | Some case_data => (Ok tt, write_case_json case_id (f case_data) st)
      end
  end.

(** [POST /api/dashboard/cases/{case_id}/update-status] *)
Definition update_case_status (case_id status : string)
    (notes : option string) (now : clock) (st : local_store)
  : result status_response * local_store :=
  match cases_db st with
  | None => (Raise (HTTPException 404 "Case database not found"), st)
  | Some cases =>
      match find_index
              (fun c => py_eq (dict_get c "case_id") (JStr case_id)) cases with
      | None => (Raise (HTTPException 404 "Case not found"), st)
      | Some case_index =>
          let cases' := alter (apply_status status notes now) case_index cases in
          match update_case_json case_id (apply_status status notes now) st with
          | (Raise e, st) => (Raise e, st)
          | (Ok _, st) =>
              (Ok {| st_success := true; st_case_id := case_id;
                     st_status := status |},
               set_cases_db cases' st)
          end
      end
  end.

(** The four assignments of [assign_case_number] on one record. *)
Definition apply_case_number (case_number : string)
    (filing_date : option string) (now : clock) (c : dict) : dict :=
  let c := <["official_case_number" := JStr case_number]> c in
  let c := <["status" := JStr "filed"]> c in
  let c := <["filing_date" :=
               JStr (if str_truthy filing_date
                     then default EmptyString filing_date else now_date now)]> c in
  <["assigned_at" := JStr (now_isoformat now)]> c.

Record assign_response : Type := {
  as_success : bool;
  as_case_id : string;
  as_official_case_number : string
}.

(** [POST /api/dashboard/cases/{case_id}/assign-number] *)
Definition assign_case_number (case_id case_number : string)
    (filing_date : option string) (now : clock) (st : local_store)
  : result assign_response * local_store :=
  match cases_db st with
  | None => (Raise (HTTPException 404 "Case database not found"), st)
  | Some cases =>
      match find_index
              (fun c => py_eq (dict_get c "case_id") (JStr case_id)) cases with
      | None => (Raise (HTTPException 404 "Case not found"), st)
      | Some case_index =>
          let cases' :=
            alter (apply_case_number case_number filing_date now)
                  case_index cases in
          match update_case_json case_id
                  (apply_case_number case_number filing_date now) st with
          | (Raise e, st) => (Raise e, st)
          | (Ok _, st) =>
              (Ok {| as_success := true; as_case_id := case_id;
                     as_official_case_number := case_number |},
               set_cases_db cases' st)
          end
      end
  end.

End Main.

(* ----------------------------------------------------------------- *)
(** ** dashboard_api.py *)

Module Dashboard.

Definition load_cases (st : local_store) : list dict :=
  default [] (cases_db st).

Definition save_cases (cases : list dict) (st : local_store) : local_store :=
  set_cases_db cases st.

Record CaseUpdate : Type := {
  status : option string;
  official_case_number : option string;
  filing_date : option string;
  clerk_notes : option string;
  rejection_reason : option string
}.

(** [next((i for i, c in enumerate(cases) if c['case_id'] == case_id), None)]:
    the subscript raises on a record without the key. *)
Fixpoint find_case_index (case_id : string) (cases : list dict)
  : result (option nat) :=
  match cases with
  | [] => Ok None
  | c :: rest =>
      let? v := dict_item c "case_id" in
      if py_eq v (JStr case_id) then Ok (Some 0)
      else let? r := find_case_index case_id rest in Ok (S <$> r)
  end.

(** [if update.field: case[key] = update.field] *)
Definition set_if (field : option string) (key : string) (c : dict) : dict :=
  if str_truthy field then <[key := of_opt_str field]> c else c.

(** The assignments of [update_case] on one record; [username] is
    [user['username']]. *)
Definition apply_update (update : CaseUpdate) (username : string)
    (now : clock) (c : dict) : dict :=
  let c :=
    if str_truthy (status update)
    then <["assigned_at" := JStr (now_isoformat now)]>
         (<["assigned_by" := JStr username]>
         (<["status" := of_opt_str (status update)]> c))
    else c in
  let c := set_if (official_case_number update) "official_case_number" c in
  let c := set_if (filing_date update) "filing_date" c in
  let c := set_if (clerk_notes update) "clerk_notes" c in
  set_if (rejection_reason update) "rejection_reason" c.

(** [POST /api/dashboard/cases/{case_id}/update]; returns the ["case"]
    field of the response. *)
Definition update_case (case_id : string) (update : CaseUpdate)
    (username : string) (now : clock) (st : local_store)
  : result dict * local_store :=
  let cases := load_cases st in
  match find_case_index case_id cases with
  | Raise e => (Raise e, st)
  | Ok None => (Raise (HTTPException 404 "Case not found"), st)
  | Ok (Some case_index) =>
      let cases' := alter (apply_update update username now) case_index cases in
      (Ok (default ∅ (cases' !! case_index)), save_cases cases' st)
  end.



Section WithPyLib.
Context `{PyLib}.

Definition csv_header : string :=
  "Case ID,Landlord,Tenant,Property,Amount Owed,Status,Submitted,Official Case #,Filing Date".

(** One f-string of [export_cases_csv]. *)
Definition csv_row (case : dict) : result string :=
  let? case_id := dict_item case "case_id" in
  let? landlord_name := dict_item case "landlord_name" in
  let? tenant_name := dict_item case "tenant_name" in
  let? property_address := dict_item case "property_address" in
  let? amount_owed := dict_item case "amount_owed" in
  let? status := dict_item case "status" in
  let? submitted_at := dict_item case "submitted_at" in
  Ok (py_str case_id +:+ "," +:+ py_str landlord_name +:+ ","
      +:+ py_str tenant_name +:+ "," +:+ py_str property_address +:+ ","
      +:+ py_str amount_owed +:+ "," +:+ py_str status +:+ ","
      +:+ py_str submitted_at +:+ ","
      +:+ py_str (default (JStr EmptyString) (case !! "official_case_number")) +:+ ","
      +:+ py_str (default (JStr EmptyString) (case !! "filing_date"))).

(** The loop appending to [csv_lines]. *)
Fixpoint csv_append (cases : list dict) (csv_lines : list string)
  : result (list string) :=
  match cases with
  | [] => Ok csv_lines
  | case :: rest =>
      let? row := csv_row case in
      csv_append rest (csv_lines ++ [row])
  end.

Definition csv_lines (st : local_store) : result (list string) :=
  csv_append (load_cases st) [csv_header].

(** [GET /api/dashboard/export/csv]: the body of the response. *)
Definition export_cases_csv (st : local_store) : result string :=
  let? lines := csv_lines st in
  Ok (String.concat newline lines).

(** One value of [monthly_stats]. *)
Record month_stats : Type := {
  total : Z;
  filed : Z;
  rejected : Z;
  pending : Z;
  total_amount : Z
}.

Definition new_month : month_stats :=
  {| total := 0; filed := 0; rejected := 0; pending := 0;
     total_amount := 0 |}.

(** [x += v] for a JSON number [v] ([bool] is an [int] in Python). *)
Definition as_number (v : jval) : result Z :=
  match v with
  | JNum n => Ok n
  | JBool b => Ok (Z.b2z b)
  | _ => Raise (TypeError "unsupported operand type(s) for +=")
  end.

Definition month_key_of (case : dict) : result string :=
  let? submitted_at := dict_item case "submitted_at" in
  match submitted_at with
  | JStr s =>
      match iso_month s with
      | Some month_key => Ok month_key
      | None => Raise (ValueError "Invalid isoformat string")
      end
  | _ => Raise (AttributeError "replace")
  end.

(** One iteration of the loop of [get_monthly_report]. *)
Definition count_case (case : dict) (monthly_stats : gmap string month_stats)
  : result (gmap string month_stats) :=
  let? month_key := month_key_of case in
  let s := default new_month (monthly_stats !! month_key) in
  let? amount_owed := let? v := dict_item case "amount_owed" in as_number v in
  let s := {| total := total s + 1; filed := filed s;
              rejected := rejected s; pending := pending s;
              total_amount := total_amount s + amount_owed |} in
  let? status := dict_item case "status" in
  let s :=
    if py_eq status (JStr "filed") then
      {| total := total s; filed := filed s + 1; rejected := rejected s;
         pending := pending s; total_amount := total_amount s |}
    else if py_eq status (JStr "rejected") then
      {| total := total s; filed := filed s; rejected := rejected s + 1;
         pending := pending s; total_amount := total_amount s |}
    else if py_eq status (JStr "submitted") || py_eq status (JStr "processing")
            || py_eq status (JStr "approved") then
      {| total := total s; filed := filed s; rejected := rejected s;
         pending := pending s + 1; total_amount := total_amount s |}
    else s in
  Ok (<[month_key := s]> monthly_stats).

Fixpoint group_by_month (cases : list dict)
    (monthly_stats : gmap string month_stats)
  : result (gmap string month_stats) :=
  match cases with
  | [] => Ok monthly_stats
  | case :: rest =>
      let? monthly_stats := count_case case monthly_stats in
      group_by_month rest monthly_stats
  end.

(** The order of [sorted(monthly_stats.items(), reverse=True)]: months
    are distinct keys, so the comparison never reaches the values. *)
Definition month_desc (a b : string * month_stats) : Prop :=
  String.leb b.1 a.1 = true.

Global Instance month_desc_dec a b : Decision (month_desc a b).
Proof. unfold month_desc. apply _. Defined.

(** [GET /api/dashboard/reports/monthly]: the rows of
    ["monthly_report"], each a month with its statistics. *)
Definition get_monthly_report (st : local_store)
  : result (list (string * month_stats)) :=
  let? monthly_stats := group_by_month (load_cases st) ∅ in
  Ok (merge_sort month_desc (map_to_list monthly_stats)).

End WithPyLib.

End Dashboard.

(** *** The statistics endpoint of dashboard_api.py *)

Module Stats.
Import Dashboard.

(** What [get_dashboard_stats] asks of [datetime]: the test
    [datetime.fromisoformat(s.replace('Z', '+00:00')) >= now - timedelta(days=7)],
    raising where Python does (a string that does not parse, an aware
    datetime compared with the naive [datetime.now()]). *)
Class DateLib : Type := {
  since_week_ago : clock → string → result bool
}.

Record DashboardStats : Type := {
  total_cases : nat;
  pending_review : nat;
  processing : nat;
  approved : nat;
  rejected : nat;
  court_filed : nat;
  recent_submissions : list dict
}.

(** [len([c for c in cases if c['status'] == status])] *)
Fixpoint count_status (status : string) (cases : list dict) : result nat :=
  match cases with
  | [] => Ok 0
  | c :: rest =>
      let? v := dict_item c "status" in
      let? n := count_status status rest in
      Ok (if py_eq v (JStr status) then S n else n)
  end.

Section WithDateLib.
Context `{DateLib}.

(** The list comprehension behind [recent_cases], before the slice. *)
Fixpoint submitted_this_week (now : clock) (cases : list dict)
  : result (list dict) :=
  match cases with
  | [] => Ok []
  | case :: rest =>
      let? submitted_at := dict_item case "submitted_at" in
      let? keep :=
        match submitted_at with
        | JStr s => since_week_ago now s
        | _ => Raise (AttributeError "replace")
        end in
      let? kept := submitted_this_week now rest in
      Ok (if keep then case :: kept else kept)
  end.

(** [GET /api/dashboard/stats] *)
Definition get_dashboard_stats (now : clock) (st : local_store)
  : result DashboardStats :=
  let cases := load_cases st in
  let? this_week := submitted_this_week now cases in
  let recent_cases := take 5 this_week in
  let? pending_review := count_status "submitted" cases in
  let? processing := count_status "processing" cases in
  let? approved := count_status "approved" cases in
  let? rejected := count_status "rejected" cases in
  let? court_filed := count_status "filed" cases in
  Ok {| total_cases := length cases;
        pending_review := pending_review;
        processing := processing;
        approved := approved;
        rejected := rejected;
        court_filed := court_filed;
        recent_submissions := recent_cases |}.

End WithDateLib.

End Stats.

(* ----------------------------------------------------------------- *)
(** ** backend/github_submitter.py *)

Module GitHub.

(** *** The HTTP client *)

(** The body of a response as [response.json()] finds it: not JSON at
    all, JSON that is not an object (a list, a string, a number), or an
    object, of which the two fields the code reads are kept. *)
Inductive json_body : Type :=
| NotJson
| JsonOther
| JsonObject (content : option blob) (sha : option string).

(** A response of the contents API. *)
Record response : Type := {
  status_code : Z;
  body : json_body
}.

(** The two fields of a parsed body. *)
Definition content_of (parsed : json_body) : option blob :=
  match parsed with JsonObject content _ => content | _ => None end.

Definition sha_of (parsed : json_body) : option string :=
  match parsed with JsonObject _ sha => sha | _ => None end.

(** [response.json()["content"]] and [response.json()["sha"]], where
    there are such. *)
Definition json_content (r : response) : option blob := content_of (body r).

Definition json_sha (r : response) : option string := sha_of (body r).

(** The JSON body of a PUT. *)
Record put_data : Type := {
  message : string;
  content : blob;
  sha : option string
}.

(** The remote service behind [requests.get] and [requests.put]; a call
    answers with a response or raises (no connection, timeout). *)
Class Remote (W : Type) : Type := {
  requests_get : string → W → result response * W;
  requests_put : string → put_data → W → result response * W
}.

(** A request as sent, with what came back. *)
Inductive call : Type :=
| GET (url : string) (reply : result response)
| PUT (url : string) (data : put_data) (reply : result response).

(** The remote service together with the requests sent so far. *)
Record session (W : Type) : Type := {
  remote : W;
  calls : list call
}.
Arguments remote {W} _.
Arguments calls {W} _.

(** Computations that talk to the remote service and may raise. *)
Definition M (W A : Type) : Type := session W → result A * session W.

Definition ret {W A} (a : A) : M W A := fun s => (Ok a, s).

Definition raise {W A} (e : exn) : M W A := fun s => (Raise e, s).

Definition bind {W A B} (m : M W A) (k : A → M W B) : M W B :=
  fun s =>
    match m s with
    | (Ok a, s') => k a s'
    | (Raise e, s') => (Raise e, s')
    end.

Definition lift {W A} (r : result A) : M W A := fun s => (r, s).

(** [try: body  except Exception as e: handler e] *)
Definition try_except {W A} (body : M W A) (handler : exn → M W A) : M W A :=
  fun s =>
    match body s with
    | (Ok a, s') => (Ok a, s')
    | (Raise e, s') => handler e s'
    end.

Declare Scope gh_scope.
Delimit Scope gh_scope with gh.
Notation "x <- e ;; k" := (bind e (fun x => k))
  (at level 100, e at next level, right associativity) : gh_scope.
Notation "e ;; k" := (bind e (fun _ => k))
  (at level 100, right associativity) : gh_scope.
Open Scope gh_scope.

(** [for x in l: body x] *)
Fixpoint for_each {W A} (l : list A) (body : A → M W unit) : M W unit :=
  match l with
  | [] => ret tt
  | x :: rest => body x ;; for_each rest body
  end.

Definition http_get {W} `{Remote W} (url : string) : M W response :=
  fun s =>
    let (r, w) := requests_get url (remote s) in
    (r, {| remote := w; calls := calls s ++ [GET url r] |}).

Definition http_put {W} `{Remote W} (url : string) (data : put_data)
  : M W response :=
  fun s =>
    let (r, w) := requests_put url data (remote s) in
    (r, {| remote := w; calls := calls s ++ [PUT url data r] |}).

(** [response.raise_for_status()] *)
Definition raise_for_status {W} (r : response) : M W unit :=
  if (400 <=? status_code r)%Z && (status_code r <? 600)%Z
  then raise (HTTPError (status_code r))
  else ret tt.

(** [d[key]] for a dict of which [field] is the value under [key]. *)
Definition json_item {A} (field : option A) (key : string) : result A :=
  match field with
  | Some v => Ok v
  | None => Raise (KeyError key)
  end.

(** [response.json()] *)
Definition response_json (r : response) : result json_body :=
  match body r with
  | NotJson => Raise (ValueError "JSONDecodeError")
  | parsed => Ok parsed
  end.

(** [parsed[key]], with [field] the value under [key] of an object. *)
Definition json_subscript {A} (parsed : json_body)
    (field : json_body → option A) (key : string) : result A :=
  match parsed with
  | JsonObject _ _ => json_item (field parsed) key
  | _ => Raise (TypeError "indices must be integers")
  end.

(** *** GitHubCaseSubmitter *)

Record GitHubCaseSubmitter : Type := {
  github_token : string;
  repo_owner : string;
  repo_name : string
}.

Definition base_url (self : GitHubCaseSubmitter) : string :=
  "https://api.github.com/repos/" +:+ repo_owner self +:+ "/"
    +:+ repo_name self.

(** [f"{self.base_url}/contents/{path}"] *)
Definition contents_url (self : GitHubCaseSubmitter) (path : string)
  : string :=
  base_url self +:+ "/contents/" +:+ path.

(** The dict handed to [submit_case].  The endpoint builds it from a
    request in which [case_id] is a string; a direct caller may leave
    the key out. *)
Record CaseSubmission : Type := {
  case_id : option string;
  case_data : dict;
  documents : list (string * blob);
  timestamp : string
}.

Definition get_doc_filename (doc_type : string) : string :=
  let filenames : gmap string string :=
    <["demand_notice" := "7-Day_Demand_Notice.pdf"]>
    (<["affidavit" := "Dispossessory_Affidavit.pdf"]>
    (<["summons" := "Summons.pdf"]>
    (<["scra_form" := "SCRA_Verification.pdf"]> ∅))) in
  default (doc_type +:+ ".pdf") (filenames !! doc_type).

Section WithRemote.
Context {W : Type} `{Remote W}.

(** [create_file]: create or update a file of the repository. *)
Definition create_file (self : GitHubCaseSubmitter) (path : string)
    (content : blob) (message : string) (is_binary : bool)
  : M W json_body :=
  let url := contents_url self path in
  response <- http_get url ;;
  sha <- lift (if (status_code response =? 200)%Z
               then let? existing_file := response_json response in
                    let? s := json_subscript existing_file sha_of "sha" in
                    Ok (Some s)
               else Ok None) ;;
  let data := {| message := message;
                 content := if negb is_binary then content else content;
                 sha := sha |} in
  response <- http_put url data ;;
  raise_for_status response ;;
  lift (response_json response).

(** [case_data.get(outer, {}).get(inner)] *)
Definition get_in (case_data : dict) (outer inner : string) : result jval :=
  match default (JObj ∅) (case_data !! outer) with
  | JObj m => Ok (dict_get m inner)
  | _ => Raise (AttributeError "get")
  end.

(** [index_data["cases"].append(new_case)] *)
Definition append_case (index_data new_case : jval) : result jval :=
  match index_data with
  | JObj m =>
      let? cases := dict_item m "cases" in
      match cases with
      | JArr l => Ok (JObj (<["cases" := JArr (l ++ [new_case])]> m))
      | _ => Raise (AttributeError "append")
      end
  | _ => Raise (TypeError "indices must be integers")
  end.

Definition index_path : string := "cases/index.json".

(** The first half of [update_case_index]: the index and its version
    token as the GET found them, or an empty index. *)
Definition read_index (response : response)
  : result (jval * option string) :=
  if (status_code response =? 200)%Z
  then
    let? existing_index := response_json response in
    let? encoded := json_subscript existing_index content_of "content" in
    let? content := b64decode encoded in
    let? index_data := json_loads content in
    let? sha := json_subscript existing_index sha_of "sha" in
    Ok (index_data, Some sha)
  else Ok (JObj (<["cases" := JArr []]> ∅), None).

(** The dict [new_case]. *)
Definition index_entry (case_id : string) (submission : CaseSubmission)
    (now : clock) : result jval :=
  let? landlord := get_in (case_data submission) "landlord" "name" in
  let? tenant := get_in (case_data submission) "tenant" "name" in
  let? property := get_in (case_data submission) "property" "address" in
  Ok (JObj (<["case_id" := JStr case_id]>
           (<["landlord" := landlord]>
           (<["tenant" := tenant]>
           (<["property" := property]>
           (<["submitted" := JStr (now_isoformat now)]>
           (<["status" := JStr "submitted"]> ∅))))))).

(** The body of the PUT that saves the index. *)
Definition index_put_data (case_id : string) (index_data : jval)
    (sha : option string) : put_data :=
  let content := json_dumps index_data in
  let encoded_content := b64encode content in
  {| message := "Update index with case " +:+ case_id;
     content := encoded_content;
     sha := if str_truthy sha then sha else None |}.

(** [update_case_index]: update the index of all cases. *)
Definition update_case_index (self : GitHubCaseSubmitter)
    (case_id : string) (submission : CaseSubmission) (now : clock)
  : M W unit :=
  let url := contents_url self index_path in
  response <- http_get url ;;
  existing <- lift (read_index response) ;;
  let '(index_data, sha) := existing in
  new_case <- lift (index_entry case_id submission now) ;;
  index_data <- lift (append_case index_data new_case) ;;
  response <- http_put url (index_put_data case_id index_data sha) ;;
  raise_for_status response.

(** The dict [submit_case] returns. *)
Record submit_result : Type := {
  success : bool;
  result_case_id : option string;
  github_path : option string;
  files_created : option nat;
  error : option exn           (* the exception behind str(e) *)
}.

(** The id [submit_case] works with: the supplied one when it is
    truthy, else one made from the clock (and stored back into the
    payload, where nothing reads it again). *)
Definition resolve_case_id (submission : CaseSubmission) (now : clock)
  : string :=
  if str_truthy (case_id submission)
  then default EmptyString (case_id submission)
  else "HOU-" +:+ pretty (now_year now) +:+ "-"
         +:+ pretty (now_timestamp now).

(** Step 2 of [submit_case]: one document. *)
Definition save_document (self : GitHubCaseSubmitter)
    (case_id case_dir : string) (doc : string * blob) : M W unit :=
  let '(doc_type, doc_base64) := doc in
  let filename := get_doc_filename doc_type in
  pdf_content <- lift (b64decode doc_base64) ;;
  let encoded_content := b64encode pdf_content in
  create_file self (case_dir +:+ "/" +:+ filename) encoded_content
    ("Add " +:+ doc_type +:+ " for case " +:+ case_id) true ;;
  ret tt.

(** The writes of [submit_case] that come before the document that
    follows [pre]: the case record, then the documents [pre]. *)
Definition writes_before (self : GitHubCaseSubmitter)
    (submission : CaseSubmission) (now : clock)
    (pre : list (string * blob)) : M W unit :=
  let case_id := resolve_case_id submission now in
  let case_dir := "cases/" +:+ case_id in
  create_file self (case_dir +:+ "/case_data.json")
    (json_dumps (JObj (case_data submission)))
    ("Add case data for " +:+ case_id) false ;;
  for_each pre (save_document self case_id case_dir).

(** [submit_case]: submit a complete eviction case. *)
Definition submit_case (self : GitHubCaseSubmitter)
    (submission : CaseSubmission) (now : clock) : M W submit_result :=
  let case_id := resolve_case_id submission now in
  try_except
    (let case_dir := "cases/" +:+ case_id in
     let case_json := json_dumps (JObj (case_data submission)) in
     create_file self (case_dir +:+ "/case_data.json") case_json
       ("Add case data for " +:+ case_id) false ;;
     let documents := documents submission in
     for_each documents (save_document self case_id case_dir) ;;
     update_case_index self case_id submission now ;;
     ret {| success := true;
            result_case_id := Some case_id;
            github_path := Some (case_dir +:+ "/");
            files_created := Some (length documents + 1);
            error := None |})
    (fun e =>
       ret {| success := false;
              result_case_id := Some case_id;
              github_path := None;
              files_created := None;
              error := Some e |}).

End WithRemote.

(** *** The endpoint [POST /api/submit-to-github] *)

(** The request body, validated: [case_id] is a string. *)
Record SubmissionRequest : Type := {
  req_case_id : string;
  req_case_data : dict;
  req_documents : list (string * blob);
  req_timestamp : string
}.

(** [submission.dict()] *)
Definition request_dict (submission : SubmissionRequest) : CaseSubmission :=
  {| case_id := Some (req_case_id submission);
     case_data := req_case_data submission;
     documents := req_documents submission;
     timestamp := req_timestamp submission |}.

(** The body of a successful response. *)
Record endpoint_response : Type := {
  resp_success : bool;
  resp_message : string;
  resp_case_id : option string;
  resp_github_url : string;
  resp_files_created : option nat
}.

(** [os.getenv(key, default)] *)
Definition getenv (environ : gmap string string) (key : string)
    (default_value : string) : string :=
  default default_value (environ !! key).

Section Endpoint.
Context {W : Type} `{Remote W} `{ExnText}.

(** [submit_case_to_github]; [environ] is [os.environ]. *)
Definition submit_case_to_github (environ : gmap string string)
    (submission : SubmissionRequest) (now : clock) : M W endpoint_response :=
  try_except
    (let github_token := environ !! "GITHUB_TOKEN" in
     let repo_owner := getenv environ "GITHUB_REPO_OWNER" "NAGOHUSA" in
     let repo_name := getenv environ "GITHUB_REPO_NAME" "GAEVIC" in
     if negb (str_truthy github_token)
     then raise (HTTPException 500 "GitHub token not configured")
     else
       let submitter :=
         {| github_token := default EmptyString github_token;
            repo_owner := repo_owner;
            repo_name := repo_name |} in
       result <- submit_case submitter (request_dict submission) now ;;
       if success result
       then
         github_path <- lift (json_item (github_path result) "github_path") ;;
         ret {| resp_success := true;
                resp_message := "Case submitted successfully";
                resp_case_id := result_case_id result;
                resp_github_url :=
                  "https://github.com/" +:+ repo_owner +:+ "/" +:+ repo_name
                    +:+ "/tree/main/" +:+ github_path;
                resp_files_created := files_created result |}
       else
         e <- lift (json_item (error result) "error") ;;
         raise (HTTPException 500 (str_exn e)))
    (fun e => raise (HTTPException 500 ("Submission failed: " +:+ str_exn e))).

End Endpoint.

End GitHub.

(* ----------------------------------------------------------------- *)
(** ** A contents-API double

    A small in-memory repository that answers like the contents API:
    every file carries a version token, a PUT on an existing file is
    accepted only with the current token, and a second client may commit
    between a GET and the PUT that follows it. *)

Module Repo.
Import GitHub.

Record repo : Type := {
  files : gmap string (blob * string);  (* url -> content, version token *)
  commits : nat;                        (* commits so far; names the next token *)
  rivals : list (string * blob);        (* writes of a second client, each
                                           landing right after the next GET
                                           of its url *)
  outage : list string                  (* urls on which a PUT answers 500 *)
}.

Definition empty_repo : repo :=
  {| files := ∅; commits := 0; rivals := []; outage := [] |}.

Definition commit (url : string) (c : blob) (r : repo) : repo :=
  {| files := <[url := (c, "sha" +:+ pretty (commits r))]> (files r);
     commits := S (commits r);
     rivals := rivals r;
     outage := outage r |}.

Definition land_rivals (url : string) (r : repo) : repo :=
  let mine := filter (fun p => p.1 = url) (rivals r) in
  let others := filter (fun p => p.1 ≠ url) (rivals r) in
  foldl (fun r p => commit url p.2 r)
    {| files := files r; commits := commits r; rivals := others;
       outage := outage r |} mine.

Definition answer (status : Z) (c : option blob) (s : option string)
  : result response :=
  Ok {| status_code := status; body := JsonObject c s |}.

Definition get (url : string) (r : repo) : result response * repo :=
  match files r !! url with
  | Some (c, s) => (answer 200 (Some c) (Some s), land_rivals url r)
  | None => (answer 404 None None, land_rivals url r)
  end.

Definition put (url : string) (data : put_data) (r : repo)
  : result response * repo :=
  if bool_decide (url ∈ outage r) then (answer 500 None None, r)
  else
    match files r !! url, sha data with
    | Some (_, current), Some s =>
        if bool_decide (s = current)
        then (answer 200 None None, commit url (content data) r)
        else (answer 409 None None, r)
    | Some _, None => (answer 422 None None, r)
    | None, None => (answer 201 None None, commit url (content data) r)
    | None, Some _ => (answer 422 None None, r)
    end.

Global Instance repo_remote : Remote repo :=
  {| requests_get := get; requests_put := put |}.

(** The stored contents, without the version tokens. *)
Definition contents (r : repo) : gmap string blob := fst <$> files r.

Definition start (r : repo) : session repo := {| remote := r; calls := [] |}.

(** The [case_id] of every entry of a stored index, in order. *)
Definition index_case_ids (index_url : string) (r : repo) : list jval :=
  match contents r !! index_url with
  | Some (Base64 (JsonText (JObj m))) =>
      match m !! "cases" with
      | Some (JArr l) =>
          (fun e => match e with JObj c => dict_get c "case_id" | _ => JNull end)
            <$> l
      | _ => []
      end
  | _ => []
  end.

End Repo.

(* ----------------------------------------------------------------- *)
(** ** Sample data *)

Module Sample.

Definition now : clock :=
  {| now_year := 2024; now_timestamp := 1706092000;
     now_isoformat := "2024-01-24T10:26:40"; now_date := "2024-01-24" |}.

Definition later : clock :=
  {| now_year := 2024; now_timestamp := 1706095600;
     now_isoformat := "2024-01-24T11:26:40"; now_date := "2024-01-24" |}.

Definition submitter : GitHub.GitHubCaseSubmitter :=
  {| GitHub.github_token := "t0ken"; GitHub.repo_owner := "NAGOHUSA";
     GitHub.repo_name := "GAEVIC" |}.

Definition contents_url (path : string) : string :=
  GitHub.contents_url submitter path.

Definition index_url : string := contents_url GitHub.index_path.

Definition party (key name : string) : jval := JObj (<[key := JStr name]> ∅).

Definition case_fields : dict :=
  <["landlord" := party "name" "A"]>
  (<["tenant" := party "name" "B"]>
  (<["property" := party "address" "123 Main St"]>
  (<["lease_type" := JStr "month-to-month"]>
  (<["reason" := JStr "Non-Payment"]> ∅)))).

Definition three_documents : list (string * blob) :=
  [("demand_notice", Base64 (Bytes "%PDF notice"));
   ("affidavit", Base64 (Bytes "%PDF affidavit"));
   ("summons", Base64 (Bytes "%PDF summons"))].

(** A submission that brings its own id. *)
Definition with_id : GitHub.CaseSubmission :=
  {| GitHub.case_id := Some "HOU-2024-1";
     GitHub.case_data := case_fields;
     GitHub.documents := three_documents;
     GitHub.timestamp := "2024-01-24T10:26:40Z" |}.

(** Two different submissions that bring none. *)
Definition without_id : GitHub.CaseSubmission :=
  {| GitHub.case_id := None;
     GitHub.case_data := case_fields;
     GitHub.documents := [];
     GitHub.timestamp := "2024-01-24T10:26:40Z" |}.

Definition another_without_id : GitHub.CaseSubmission :=
  {| GitHub.case_id := Some EmptyString;
     GitHub.case_data := <["reason" := JStr "Holdover"]> case_fields;
     GitHub.documents := [];
     GitHub.timestamp := "2024-01-24T10:26:40Z" |}.

(** The run of [submit_case] on the double. *)
Definition submit (sub : GitHub.CaseSubmission) (t : clock)
    (s : GitHub.session Repo.repo)
  : result GitHub.submit_result * GitHub.session Repo.repo :=
  GitHub.submit_case submitter sub t s.

Definition once : GitHub.session Repo.repo :=
  (submit with_id now (Repo.start Repo.empty_repo)).2.

Definition twice : GitHub.session Repo.repo := (submit with_id now once).2.

(** A repository on which writing the affidavit fails. *)
Definition affidavit_down : Repo.repo :=
  {| Repo.files := ∅; Repo.commits := 0; Repo.rivals := [];
     Repo.outage :=
       [contents_url "cases/HOU-2024-1/Dispossessory_Affidavit.pdf"] |}.

(** A repository holding an index that a second client rewrites while
    this one is between its GET and its PUT. *)
Definition old_index : blob :=
  Base64 (JsonText (JObj (<["cases" := JArr []]> ∅))).

Definition rival_index : blob :=
  Base64 (JsonText (JObj (<["cases" :=
    JArr [JObj (<["case_id" := JStr "HOU-2024-0"]> ∅)]]> ∅))).

Definition contended : Repo.repo :=
  {| Repo.files := <[index_url := (old_index, "sha-old")]> ∅;
     Repo.commits := 0;
     Repo.rivals := [(index_url, rival_index)];
     Repo.outage := [] |}.

Definition pylib : PyLib :=
  {| py_str := fun v =>
       match v with
       | JStr s => s
       | JNum n => pretty n
       | JBool true => "True"
       | JBool false => "False"
       | _ => "None"
       end;
     iso_month := fun s =>
       if (10 <=? String.length s)%nat then Some (String.substring 0 7 s)
       else None |}.

Definition stored_case (id status submitted_at : string) (owed : Z) : dict :=
  <["case_id" := JStr id]>
  (<["landlord_name" := JStr "John Smith Properties LLC"]>
  (<["tenant_name" := JStr "Robert Johnson"]>
  (<["property_address" := JStr "123 Main St"]>
  (<["amount_owed" := JNum owed]>
  (<["status" := JStr status]>
  (<["submitted_at" := JStr submitted_at]> ∅)))))).

Definition filed_case : dict :=
  <["official_case_number" := JStr "HOU-MC-2024-01234"]>
  (<["filing_date" := JStr "2024-01-22"]>
  (stored_case "HOU-2024-1706091400-3456" "filed" "2024-01-21T16:10:00Z" 950)).

Definition approved_case : dict :=
  stored_case "HOU-2024-1706091600-9012" "approved" "2024-01-22T09:45:00Z" 3200.

Definition december_case : dict :=
  stored_case "HOU-2023-1703000000-0001" "rejected" "2023-12-19T15:33:20Z" 700.

Definition store : local_store :=
  {| cases_db := Some [filed_case; approved_case; december_case];
     case_dirs :=
       <["HOU-2024-1706091600-9012" :=
           {| case_data_json := Some approved_case;
              other_files := <["summons.pdf" := Bytes "%PDF"]> ∅ |}]> ∅ |}.

(** A submission to the local endpoint whose case fields carry an id of
    the caller's. *)
Definition local_submission : Main.CaseSubmission :=
  {| Main.case_data := <["case_id" := JStr "MY-ID"]> case_fields;
     Main.signature_data := None;
     Main.documents := [] |}.

(** The monthly report and the CSV lines of [store]. *)
Definition report : list (string * Dashboard.month_stats) :=
  [("2024-01",
    {| Dashboard.total := 2; Dashboard.filed := 1; Dashboard.rejected := 0;
       Dashboard.pending := 1; Dashboard.total_amount := 4150 |});
   ("2023-12",
    {| Dashboard.total := 1; Dashboard.filed := 0; Dashboard.rejected := 1;
       Dashboard.pending := 0; Dashboard.total_amount := 700 |})].

Definition csv : list string :=
  [Dashboard.csv_header;
   "HOU-2024-1706091400-3456,John Smith Properties LLC,Robert Johnson,123 Main St,950,filed,2024-01-21T16:10:00Z,HOU-MC-2024-01234,2024-01-22";
   "HOU-2024-1706091600-9012,John Smith Properties LLC,Robert Johnson,123 Main St,3200,approved,2024-01-22T09:45:00Z,,";
   "HOU-2023-1703000000-0001,John Smith Properties LLC,Robert Johnson,123 Main St,700,rejected,2023-12-19T15:33:20Z,,"].


Definition file_with_number : Dashboard.CaseUpdate :=
  {| Dashboard.status := Some "filed";
     Dashboard.official_case_number := Some "HOU-MC-2024-05555";
     Dashboard.filing_date := None;
     Dashboard.clerk_notes := None;
     Dashboard.rejection_reason := None |}.

(** A submission to the local endpoint with two documents. *)
Definition paper_submission : Main.CaseSubmission :=
  {| Main.case_data := case_fields;
     Main.signature_data := Some "data:image/png;base64,AAAA";
     Main.documents :=
       [("demand_notice", Base64 (Bytes "%PDF notice"));
        ("summons", Base64 (Bytes "%PDF summons"))] |}.

(** The same with an affidavit that is not base64. *)
Definition torn_submission : Main.CaseSubmission :=
  {| Main.case_data := case_fields;
     Main.signature_data := None;
     Main.documents :=
       [("demand_notice", Base64 (Bytes "%PDF notice"));
        ("affidavit", Bytes "not base64");
        ("summons", Base64 (Bytes "%PDF summons"))] |}.

Definition uuid4 : string := "3f2b8c1e-0d6a-4b7e-9a51-6c2e8f1d4a70".

(** An update whose only field is an empty string. *)
Definition no_change : Dashboard.CaseUpdate :=
  {| Dashboard.status := None;
     Dashboard.official_case_number := None;
     Dashboard.filing_date := None;
     Dashboard.clerk_notes := Some EmptyString;
     Dashboard.rejection_reason := None |}.

(** A store whose timestamps are naive, as [datetime.now().isoformat()]
    of main.py writes them. *)
Definition naive_store : local_store :=
  {| cases_db :=
       Some [stored_case "HOU-2024-1705853400-1a2b3c4d" "filed"
               "2024-01-21T16:10:00.120000" 950;
             stored_case "HOU-2024-1705916700-5e6f7a8b" "approved"
               "2024-01-22T09:45:00.450000" 3200;
             stored_case "HOU-2024-1704880800-9c0d1e2f" "submitted"
               "2024-01-10T10:00:00.000001" 500;
             stored_case "HOU-2023-1703000000-0a1b2c3d" "rejected"
               "2023-12-19T15:33:20.000000" 700];
     case_dirs := ∅ |}.

Definition naive_report : list (string * Dashboard.month_stats) :=
  [("2024-01",
    {| Dashboard.total := 3; Dashboard.filed := 1; Dashboard.rejected := 0;
       Dashboard.pending := 2; Dashboard.total_amount := 4650 |});
   ("2023-12",
    {| Dashboard.total := 1; Dashboard.filed := 0; Dashboard.rejected := 1;
       Dashboard.pending := 0; Dashboard.total_amount := 700 |})].

(** A timestamp with a [Z] or an offset parses to an aware datetime. *)
Definition aware (s : string) : bool :=
  match String.index 0 "Z" s, String.index 0 "+" s with
  | None, None => false
  | _, _ => true
  end.

(** At the clock reading [now] a week ago is 2024-01-17T10:26:40, and
    naive ISO timestamps compare as their strings do; an aware one does
    not compare with the naive [datetime.now()]. *)
Definition datelib : Stats.DateLib :=
  {| Stats.since_week_ago := fun _ s =>
       if aware s
       then Raise (TypeError
                     "can't compare offset-naive and offset-aware datetimes")
       else Ok (String.leb "2024-01-17T10:26:40" s) |}.

(** The statistics of [naive_store] at [now]. *)
Definition stats : Stats.DashboardStats :=
  {| Stats.total_cases := 4;
     Stats.pending_review := 1;
     Stats.processing := 0;
     Stats.approved := 1;
     Stats.rejected := 1;
     Stats.court_filed := 1;
     Stats.recent_submissions := take 2 (default [] (cases_db naive_store)) |}.

(** A request to the remote endpoint whose affidavit is not base64. *)
Definition torn_request (id : string) : GitHub.SubmissionRequest :=
  {| GitHub.req_case_id := id;
     GitHub.req_case_data := case_fields;
     GitHub.req_documents :=
       [("demand_notice", Base64 (Bytes "%PDF notice"));
        ("affidavit", Bytes "not base64")];
     GitHub.req_timestamp := "2024-01-24T10:26:40Z" |}.

(** An environment that names the token and leaves the repository to
    the defaults. *)
Definition environ : gmap string string := <["GITHUB_TOKEN" := "t0ken"]> ∅.

(** The samples write documents under plain names only; this double
    refuses every other name. *)
Definition filesystem : FileSystem :=
  {| write_elsewhere := fun _ name _ st => (Raise (FileNotFoundError name), st) |}.

(** The one exception a sample of main.py raises is the [binascii.Error]
    of the torn affidavit; this is its text. *)
Definition torn_text : ExnText :=
  {| str_exn := fun _ =>
       "Invalid base64-encoded string: number of data characters (9) cannot be 1 more than a multiple of 4" |}.

(** The index entry of [with_id], and the index that holds it alone. *)
Definition entry : jval :=
  JObj (<["case_id" := JStr "HOU-2024-1"]>
       (<["landlord" := JStr "A"]>
       (<["tenant" := JStr "B"]>
       (<["property" := JStr "123 Main St"]>
       (<["submitted" := JStr "2024-01-24T10:26:40"]>
       (<["status" := JStr "submitted"]> ∅)))))).

Definition index_of_one : dict := <["cases" := JArr [entry]]> ∅.

(** What the GET of the index answers after the first submission, and
    on an empty repository. *)
Definition index_found : GitHub.response :=
  {| GitHub.status_code := 200;
     GitHub.body :=
       GitHub.JsonObject (Some (Base64 (JsonText (JObj index_of_one))))
         (Some "sha4") |}.

Definition index_missing : GitHub.response :=
  {| GitHub.status_code := 404;
     GitHub.body := GitHub.JsonObject None None |}.

End Sample.

(* ----------------------------------------------------------------- *)
(** ** Vocabulary of the statements *)

(** The [case_id] column of the case list. *)
Definition case_ids (cases : list dict) : list jval :=
  (fun c => dict_get c "case_id") <$> cases.

(** The record holds an official case number: a string that is not
    empty. A missing key, [null] and the empty string are no number. *)
Definition has_number (c : dict) : Prop :=
  match c !! "official_case_number" with
  | Some (JStr number) => number ≠ EmptyString
  | _ => False
  end.

Global Instance has_number_dec c : Decision (has_number c).
Proof.
  unfold has_number.
  destruct (c !! "official_case_number") as [[| | |number| |]|]; apply _.
Defined.

(** filed ⇒ official_case_number present *)
Definition filed_has_number (c : dict) : Prop :=
  c !! "status" = Some (JStr "filed") → has_number c.

Global Instance filed_has_number_dec c : Decision (filed_has_number c).
Proof. unfold filed_has_number. apply _. Defined.

(** The same of every record of the store: the case list and each
    [case_data.json]. *)
Definition store_inv (st : local_store) : Prop :=
  Forall filed_has_number (default [] (cases_db st)) ∧
  ∀ id folder c,
    case_dirs st !! id = Some folder → case_data_json folder = Some c →
    filed_has_number c.


Definition status_fields : list string :=
  ["status"; "updated_at"; "admin_notes"].

(** [c'] is [c] after a status update: the new status is in place and
    nothing outside [status_fields] moved, nor [admin_notes] without
    notes. *)
Definition status_updated (status : string) (notes : option string)
    (c c' : dict) : Prop :=
  c' !! "status" = Some (JStr status) ∧
  (∀ k, k ∉ status_fields → c' !! k = c !! k) ∧
  (str_truthy notes = false → c' !! "admin_notes" = c !! "admin_notes").

(** What [update_case_status] leaves of the store [st] in [st']: one
    record of the case list and the [case_data.json] of the case, each
    changed by [status_updated] only. *)
Definition status_frame (case_id status : string) (notes : option string)
    (st st' : local_store) : Prop :=
  ∃ cases cases' i c c',
    cases_db st = Some cases ∧ cases_db st' = Some cases' ∧
    cases !! i = Some c ∧ dict_get c "case_id" = JStr case_id ∧
    cases' !! i = Some c' ∧ status_updated status notes c c' ∧
    length cases' = length cases ∧
    (∀ j, j ≠ i → cases' !! j = cases !! j) ∧
    (∀ id, id ≠ case_id → case_dirs st' !! id = case_dirs st !! id) ∧
    match case_dirs st !! case_id with
    | None => case_dirs st' !! case_id = None
    | Some folder =>
        ∃ d d',
          case_data_json folder = Some d ∧
          case_dirs st' !! case_id
            = Some {| case_data_json := Some d';
                      other_files := other_files folder |} ∧
          status_updated status notes d d'
    end.

(** A record the monthly report can count: a parseable submission date,
    a numeric amount and a status. *)
Definition reportable `{PyLib} (case : dict) : Prop :=
  (∃ s month,
      case !! "submitted_at" = Some (JStr s) ∧ iso_month s = Some month) ∧
  (∃ n, case !! "amount_owed" = Some (JNum n)) ∧
  is_Some (case !! "status").

(** Column sum of a monthly report. *)
Definition report_sum (f : Dashboard.month_stats → Z)
    (report : list (string * Dashboard.month_stats)) : Z :=
  foldr (fun row acc => f row.2 + acc)%Z 0%Z report.

Definition has_status (s : string) (c : dict) : Prop :=
  c !! "status" = Some (JStr s).

Global Instance has_status_dec s c : Decision (has_status s c).
Proof. unfold has_status. apply _. Defined.

Definition is_put (c : GitHub.call) : bool :=
  match c with GitHub.PUT _ _ _ => true | GitHub.GET _ _ => false end.

Definition call_url (c : GitHub.call) : string :=
  match c with GitHub.PUT url _ _ => url | GitHub.GET url _ => url end.

(** A response that [raise_for_status] turns into an exception. *)
Definition rejected (r : GitHub.response) : Prop :=
  (400 ≤ GitHub.status_code r < 600)%Z.

(** *** Further vocabulary *)


(** Every key outside [keys] has in [c'] the value it has in [c]. *)
Definition same_outside (keys : list string) (c c' : dict) : Prop :=
  ∀ k, k ∉ keys → c' !! k = c !! k.

(** [case_data.json] of a case directory, if both exist. *)
Definition stored_record (st : local_store) (case_id : string) : option dict :=
  case_dirs st !! case_id ≫= case_data_json.

(** A base64 string that decodes. *)
Definition decodes (doc : string * blob) : Prop := ∃ b, doc.2 = Base64 b.

(** A document whose type makes a plain file name. *)
Definition plain_document (doc : string * blob) : Prop :=
  plain_name (doc.1 +:+ ".pdf") = true.

Fixpoint has_char (a : Ascii.ascii) (s : string) : bool :=
  match s with
  | EmptyString => false
  | String b rest => if Ascii.eqb a b then true else has_char a rest
  end.

(** A character of the base64 alphabet. *)
Definition base64_char (a : Ascii.ascii) : bool :=
  let n := Ascii.nat_of_ascii a in
  ((65 <=? n) && (n <=? 90) || (97 <=? n) && (n <=? 122)
   || (48 <=? n) && (n <=? 57) || (n =? 43) || (n =? 47))%nat.

Fixpoint data_chars (s : string) : nat :=
  match s with
  | EmptyString => 0
  | String a rest => (if base64_char a then 1 else 0) + data_chars rest
  end.

(** Text that [base64.b64decode] refuses whatever else it holds: there is
    no padding in it and its base64 characters are not a multiple of
    four. (The decoder skips every other character, so that text can
    decode without being base64.) *)
Definition never_decodes (b : blob) : Prop :=
  ∃ s, b = Bytes s ∧ has_char "="%char s = false ∧ (data_chars s mod 4 ≠ 0)%nat.

Definition submit_keys : list string :=
  ["case_id"; "submitted_at"; "status"; "signature_data"].



Definition update_keys : list string :=
  ["status"; "assigned_by"; "assigned_at"; "official_case_number";
   "filing_date"; "clerk_notes"; "rejection_reason"].

(** No field of the update is set (or every one is the empty string). *)
Definition empty_update (update : Dashboard.CaseUpdate) : Prop :=
  str_truthy (Dashboard.status update) = false ∧
  str_truthy (Dashboard.official_case_number update) = false ∧
  str_truthy (Dashboard.filing_date update) = false ∧
  str_truthy (Dashboard.clerk_notes update) = false ∧
  str_truthy (Dashboard.rejection_reason update) = false.

(** A truthy field of the update is what [c] holds under [key]. *)
Definition field_set (field : option string) (key : string) (c : dict) : Prop :=
  str_truthy field = true → c !! key = Some (of_opt_str field).

(** The columns [export_cases_csv] reads with a subscript. *)
Definition csv_columns : list string :=
  ["case_id"; "landlord_name"; "tenant_name"; "property_address";
   "amount_owed"; "status"; "submitted_at"].

Definition csv_exportable (case : dict) : Prop :=
  Forall (fun k => is_Some (case !! k)) csv_columns.

(** The statuses [get_monthly_report] counts as pending. *)
Definition is_pending (c : dict) : Prop :=
  has_status "submitted" c ∨ has_status "processing" c ∨ has_status "approved" c.

Global Instance is_pending_dec c : Decision (is_pending c).
Proof. unfold is_pending. apply _. Defined.

(** The method and the url of a request. *)
Definition call_shape (c : GitHub.call) : bool * string :=
  (is_put c, call_url c).

(** The GET and the PUT that write one file. *)
Definition write_of (url : string) : list (bool * string) :=
  [(false, url); (true, url)].

(** The path [submit_case] gives to a document. *)
Definition document_url (self : GitHub.GitHubCaseSubmitter) (case_id : string)
    (doc : string * blob) : string :=
  GitHub.contents_url self
    (("cases/" +:+ case_id) +:+ "/" +:+ GitHub.get_doc_filename doc.1).

(** What [raise_for_status] makes of a response. *)
Definition checked (r : GitHub.response) : result GitHub.response :=
  if decide (rejected r) then Raise (HTTPError (GitHub.status_code r)) else Ok r.

(** What [create_file] makes of the answer to its PUT: the exception of
    the request, the [HTTPError] of a rejection, or the parsed body. *)
Definition put_outcome (p : result GitHub.response)
  : result GitHub.json_body :=
  let? r := p in let? _ := checked r in GitHub.response_json r.

(** The record [submit_case] of main.py builds from a submission. *)
Definition submitted_record (sub : Main.CaseSubmission) (id : string)
    (now : clock) (record : dict) : Prop :=
  record !! "case_id" = Some (JStr id) ∧
  record !! "submitted_at" = Some (JStr (now_isoformat now)) ∧
  record !! "status" = Some (JStr "submitted") ∧
  record !! "signature_data" = Some (of_opt_str (Main.signature_data sub)) ∧
  same_outside submit_keys (Main.case_data sub) record.

(** The files of a case directory other than its record. *)
Definition stored_files (st : local_store) (case_id : string)
  : gmap string blob :=
  other_files (default empty_folder (case_dirs st !! case_id)).

(** A record [get_monthly_report] can count: the submission date parses,
    the amount is a number and the status is there. *)
Definition countable `{PyLib} (case : dict) : Prop :=
  (∃ s month,
      case !! "submitted_at" = Some (JStr s) ∧ iso_month s = Some month) ∧
  (∃ v n, case !! "amount_owed" = Some v ∧ Dashboard.as_number v = Ok n) ∧
  is_Some (case !! "status").

(* ================================================================= *)
(** * Part II: properties *)
(* ================================================================= *)

(** ** The notice period *)

(** C7: the notice period put into the render context of the demand
    notice is "7 days" when [lease_type] is the string "month-to-month"
    and "30 days" for every other value, a missing one included. *)
Theorem notice_period_rule (case_data : dict) (today : string) :
  GenerateDocs.notice_period
    (GenerateDocs.generate_eviction_notice case_data today)
  = if decide (case_data !! "lease_type" = Some (JStr "month-to-month"))
    then "7 days" else "30 days".
Proof.
  unfold GenerateDocs.generate_eviction_notice, py_eq, dict_get.
  cbn [GenerateDocs.notice_period].
  destruct (case_data !! "lease_type") as [v|]; cbn [default];
    case_bool_decide; case_decide; simpl in *; congruence.
Qed.

Example notice_period_capitalised :
  GenerateDocs.notice_period
    (GenerateDocs.generate_eviction_notice
       (<["lease_type" := JStr "Month-to-Month"]> ∅) "January 24, 2024")
  = "30 days".
Proof. reflexivity. Qed.

(* ----------------------------------------------------------------- *)
(** ** The remote submitter *)

Section Submitter.
Import GitHub.
Context {W : Type} `{Remote W}.

Lemma bind_ok {A B} (m : M W A) (k : A → M W B) s a s1 :
  m s = (Ok a, s1) → bind m k s = k a s1.
Proof. unfold bind. by intros ->. Qed.

Lemma bind_raise {A B} (m : M W A) (k : A → M W B) s e s1 :
  m s = (Raise e, s1) → bind m k s = (Raise e, s1).
Proof. unfold bind. by intros ->. Qed.

Lemma bind_ok_inv {A B} (m : M W A) (k : A → M W B) s b s' :
  bind m k s = (Ok b, s') → ∃ a s1, m s = (Ok a, s1) ∧ k a s1 = (Ok b, s').
Proof.
  unfold bind. destruct (m s) as [[a|e] s1]; [eauto | discriminate].
Qed.

Lemma bind_assoc {A B C} (m : M W A) (k : A → M W B) (h : B → M W C) s :
  bind (bind m k) h s = bind m (fun a => bind (k a) h) s.
Proof. unfold bind. by destruct (m s) as [[a|e] s1]. Qed.

Lemma bind_ext {A B} (m : M W A) (k k' : A → M W B) s :
  (∀ a s1, k a s1 = k' a s1) → bind m k s = bind m k' s.
Proof.
  intros Hk. unfold bind. destruct (m s) as [[a|e] s1]; [apply Hk | done].
Qed.

(** The loop over a list runs the loop over a prefix first. *)
Lemma for_each_app {A} (pre post : list A) (body : A → M W unit) s :
  for_each (pre ++ post) body s
  = bind (for_each pre body) (fun _ => for_each post body) s.
Proof.
  revert s. induction pre as [|x pre IH]; intros s; simpl.
  - done.
  - rewrite bind_assoc. apply bind_ext. intros _ s1. apply IH.
Qed.

(** A supplied id is used as it is. *)
Lemma resolve_case_id_supplied sub now id :
  case_id sub = Some id → id ≠ EmptyString → resolve_case_id sub now = id.
Proof.
  intros Hid Hne. unfold resolve_case_id. rewrite Hid. simpl.
  by rewrite bool_decide_eq_false_2.
Qed.

(** Without one, the id is made of the clock alone. *)
Lemma resolve_case_id_allocated sub now :
  str_truthy (case_id sub) = false →
  resolve_case_id sub now
  = "HOU-" +:+ pretty (now_year now) +:+ "-" +:+ pretty (now_timestamp now).
Proof. intros Hid. unfold resolve_case_id. by rewrite Hid. Qed.

(** [append_case] adds the entry at the end whatever the index holds. *)
Lemma append_case_appends (m : dict) (l : list jval) (new_case : jval) :
  m !! "cases" = Some (JArr l) →
  append_case (JObj m) new_case
  = Ok (JObj (<["cases" := JArr (l ++ [new_case])]> m)).
Proof. intros Hm. unfold append_case, dict_item. by rewrite Hm. Qed.

(** The method [submit_case] never raises; the dict it returns carries
    the resolved case id, the supplied one or the allocated one, also
    when the submission failed, and a failure names its error. *)
Lemma submit_case_carries_case_id self sub now s :
  ∃ res s',
    submit_case self sub now s = (Ok res, s') ∧
    result_case_id res = Some (resolve_case_id sub now) ∧
    (success res = false → is_Some (error res)).
Proof.
  unfold submit_case, try_except.
  match goal with |- context [match ?b s with _ => _ end] =>
    destruct (b s) as [[res|e] s'] eqn:E end.
  - do 3 (apply bind_ok_inv in E as (? & ? & _ & E)).
    injection E as <- <-. eexists _, _. split; [done|]. by split.
  - eexists _, _. split; [done|]. simpl. eauto.
Qed.

(** C3, as the code has it: when a document fails, by its decoding or by
    its write, [submit_case] ends in the session that failure left. The
    case record and the documents before it stay written, no request is
    made for the documents after it or for the index, and the result is
    the failure dict with the error and the case id. *)
Theorem submit_stops_at_failed_document self sub now s pre doc post e s1 s2 :
  let case_id := resolve_case_id sub now in
  documents sub = pre ++ doc :: post →
  writes_before self sub now pre s = (Ok tt, s1) →
  save_document self case_id ("cases/" +:+ case_id) doc s1 = (Raise e, s2) →
  submit_case self sub now s
  = (Ok {| success := false; result_case_id := Some case_id;
           github_path := None; files_created := None; error := Some e |},
     s2).
Proof.
  intros case_id Hdocs Hpre Hdoc.
  unfold submit_case, try_except. fold case_id.
  unfold writes_before in Hpre. fold case_id in Hpre.
  apply bind_ok_inv in Hpre as (r0 & s0 & Hrec & Hpre).
  rewrite (bind_ok _ _ _ _ _ Hrec).
  rewrite Hdocs.
  erewrite bind_raise; [done|].
  rewrite for_each_app. rewrite (bind_ok _ _ _ _ _ Hpre).
  simpl. by rewrite (bind_raise _ _ _ _ _ Hdoc).
Qed.

(** C4, as the code has it: one call of [update_case_index] sends one
    GET and at most one PUT for the index. A PUT that the service
    rejects is raised at once as [HTTPError] with the status of the
    rejection: the read-modify-write cycle is not run again. *)
Theorem index_put_is_never_retried self case_id sub now s :
  let url := contents_url self index_path in
  let run := update_case_index self case_id sub now s in
  (∃ g, calls run.2 = calls s ++ [GET url g]) ∨
  (∃ g data p,
      calls run.2 = calls s ++ [GET url g; PUT url data p] ∧
      ∀ resp, p = Ok resp → rejected resp →
              run.1 = Raise (HTTPError (status_code resp))).
Proof.
  cbv zeta. unfold update_case_index. cbv zeta.
  generalize (contents_url self index_path). intros url.
  unfold bind, http_get, http_put, lift.
  destruct (requests_get url (remote s)) as [[g|e] w1]; [|left; eauto].
  destruct (read_index g) as [[index_data sha]|e]; [|left; eauto].
  destruct (index_entry case_id sub now) as [new_case|e]; [|left; eauto].
  destruct (append_case index_data new_case) as [index_data'|e];
    [|left; eauto].
  cbn [remote calls].
  destruct (requests_put url _ w1) as [p w2].
  right. eexists _, _, p. split.
  - destruct p; [|by rewrite <- app_assoc].
    unfold raise_for_status, ret, raise.
    by destruct (_ && _); rewrite <- app_assoc.
  - intros resp -> [Hlo Hhi]. unfold raise_for_status.
    apply Z.leb_le in Hlo. apply Z.ltb_lt in Hhi. by rewrite Hlo, Hhi.
Qed.

End Submitter.

(** The affidavit of the sample submission cannot be written: the demand
    notice before it is kept and the summons after it is never sent. *)
Lemma submit_stops_at_failed_document_witness :
  Sample.submit Sample.with_id Sample.now (Repo.start Sample.affidavit_down)
  = (Ok {| GitHub.success := false;
           GitHub.result_case_id := Some "HOU-2024-1";
           GitHub.github_path := None;
           GitHub.files_created := None;
           GitHub.error := Some (HTTPError 500) |},
     (GitHub.save_document Sample.submitter "HOU-2024-1" "cases/HOU-2024-1"
        ("affidavit", Base64 (Bytes "%PDF affidavit"))
        (GitHub.writes_before Sample.submitter Sample.with_id Sample.now
           [("demand_notice", Base64 (Bytes "%PDF notice"))]
           (Repo.start Sample.affidavit_down)).2).2).
Proof.
  apply (submit_stops_at_failed_document Sample.submitter Sample.with_id
           Sample.now (Repo.start Sample.affidavit_down)
           [("demand_notice", Base64 (Bytes "%PDF notice"))]
           ("affidavit", Base64 (Bytes "%PDF affidavit"))
           [("summons", Base64 (Bytes "%PDF summons"))]
           (HTTPError 500)
           (GitHub.writes_before Sample.submitter Sample.with_id Sample.now
              [("demand_notice", Base64 (Bytes "%PDF notice"))]
              (Repo.start Sample.affidavit_down)).2).
  - reflexivity.
  - vm_compute. reflexivity.
  - vm_compute. reflexivity.
Defined.

(** C3 as stated fails: the repository refuses only the affidavit, and
    yet the summons is neither sent nor stored, the index is not written,
    and the result reports failure. The six requests made are the GET and
    PUT of the case record, the demand notice and the affidavit. *)
Lemma failed_document_aborts_submission :
  let run :=
    Sample.submit Sample.with_id Sample.now (Repo.start Sample.affidavit_down) in
  let stored := Repo.contents (GitHub.remote run.2) in
  (GitHub.success <$> (match run.1 with Ok res => Some res | Raise _ => None end))
    = Some false ∧
  stored !! Sample.contents_url "cases/HOU-2024-1/7-Day_Demand_Notice.pdf"
    = Some (Base64 (Bytes "%PDF notice")) ∧
  stored !! Sample.contents_url "cases/HOU-2024-1/Summons.pdf" = None ∧
  stored !! Sample.index_url = None ∧
  call_url <$> GitHub.calls run.2
    = [Sample.contents_url "cases/HOU-2024-1/case_data.json";
       Sample.contents_url "cases/HOU-2024-1/case_data.json";
       Sample.contents_url "cases/HOU-2024-1/7-Day_Demand_Notice.pdf";
       Sample.contents_url "cases/HOU-2024-1/7-Day_Demand_Notice.pdf";
       Sample.contents_url "cases/HOU-2024-1/Dispossessory_Affidavit.pdf";
       Sample.contents_url "cases/HOU-2024-1/Dispossessory_Affidavit.pdf"].
Proof. vm_compute. repeat split; reflexivity. Qed.

(** C4 as stated fails: a second client commits the index between the GET
    and the PUT. The PUT is rejected with 409, the error is raised after
    that single PUT, and the stored index is the rival's, without the
    entry of this case. *)
Lemma index_conflict_not_retried :
  let run :=
    GitHub.update_case_index Sample.submitter "HOU-2024-1" Sample.with_id
      Sample.now (Repo.start Sample.contended) in
  run.1 = Raise (HTTPError 409) ∧
  is_put <$> GitHub.calls run.2 = [false; true] ∧
  call_url <$> GitHub.calls run.2 = [Sample.index_url; Sample.index_url] ∧
  Repo.index_case_ids Sample.index_url (GitHub.remote run.2)
    = [JStr "HOU-2024-0"].
Proof. vm_compute. repeat split; reflexivity. Qed.

(** The same through [submit_case]: the conflict ends the submission. *)
Example index_conflict_fails_submission :
  GitHub.error <$>
    (match (Sample.submit Sample.with_id Sample.now
              (Repo.start Sample.contended)).1 with
     | Ok res => Some res
     | Raise _ => None
     end)
  = Some (Some (HTTPError 409)).
Proof. vm_compute. reflexivity. Qed.

(** C9 at its failing input: a request whose second document is not
    base64. The dict of [submit_case] carries the case id, and the
    endpoint, the one caller of [submit_case], answers with a 500 whose
    detail is made of the text of the error alone. The same request
    under another id gets the same answer, so that the answer does not
    tell the id. *)
Theorem endpoint_failure_drops_case_id `{ExnText} :
  let s := Repo.start Repo.empty_repo in
  let answer id :=
    (GitHub.submit_case_to_github Sample.environ (Sample.torn_request id)
       Sample.now s).1 in
  let dict :=
    (Sample.submit (GitHub.request_dict (Sample.torn_request "HOU-2024-1"))
       Sample.now s).1 in
  dict = Ok {| GitHub.success := false;
               GitHub.result_case_id := Some "HOU-2024-1";
               GitHub.github_path := None;
               GitHub.files_created := None;
               GitHub.error := Some (ValueError "binascii.Error") |} ∧
  answer "HOU-2024-1"
    = Raise (HTTPException 500
               ("Submission failed: "
                +:+ str_exn (HTTPException 500
                               (str_exn (ValueError "binascii.Error"))))) ∧
  answer "HOU-2024-2" = answer "HOU-2024-1".
Proof. vm_compute. repeat split; reflexivity. Qed.

(** C1 at its failing input: the same case id submitted twice to an empty
    repository. Both submissions succeed and the index holds two entries
    with that id. *)
Theorem github_index_duplicates_case_id :
  (Sample.submit Sample.with_id Sample.now (Repo.start Repo.empty_repo)).1
    = Ok {| GitHub.success := true;
            GitHub.result_case_id := Some "HOU-2024-1";
            GitHub.github_path := Some "cases/HOU-2024-1/";
            GitHub.files_created := Some 4;
            GitHub.error := None |} ∧
  (Sample.submit Sample.with_id Sample.now Sample.once).1
    = Ok {| GitHub.success := true;
            GitHub.result_case_id := Some "HOU-2024-1";
            GitHub.github_path := Some "cases/HOU-2024-1/";
            GitHub.files_created := Some 4;
            GitHub.error := None |} ∧
  Repo.index_case_ids Sample.index_url (GitHub.remote Sample.once)
    = [JStr "HOU-2024-1"] ∧
  Repo.index_case_ids Sample.index_url (GitHub.remote Sample.twice)
    = [JStr "HOU-2024-1"; JStr "HOU-2024-1"].
Proof. vm_compute. repeat split; reflexivity. Qed.

(** C2 at its failing input: the second identical submission, made at the
    same clock reading, leaves every file but the index as the first one
    did, and changes the index. *)
Theorem github_resubmission_changes_storage :
  delete Sample.index_url (Repo.contents (GitHub.remote Sample.twice))
    = delete Sample.index_url (Repo.contents (GitHub.remote Sample.once)) ∧
  Repo.contents (GitHub.remote Sample.twice)
    ≠ Repo.contents (GitHub.remote Sample.once).
Proof.
  split.
  - vm_compute. reflexivity.
  - intros Heq.
    assert (Repo.index_case_ids Sample.index_url (GitHub.remote Sample.twice)
            = Repo.index_case_ids Sample.index_url (GitHub.remote Sample.once))
      as Hids by (unfold Repo.index_case_ids; by rewrite Heq).
    vm_compute in Hids. discriminate.
Qed.

(** The local endpoint takes no case id: one found among the case fields
    is overwritten by the allocated id. *)
Example local_submit_overwrites_case_id `{FileSystem} `{ExnText} :
  let run :=
    Main.submit_case Sample.local_submission Sample.now
      "3f2b8c1e-0d6a-4b7e-9a51-6c2e8f1d4a70" Sample.store in
  Main.case_id <$> (match run.1 with Ok r => Some r | Raise _ => None end)
    = Some "HOU-2024-1706092000-3f2b8c1e" ∧
  case_ids (default [] (cases_db run.2))
    = [JStr "HOU-2024-1706091400-3456"; JStr "HOU-2024-1706091600-9012";
       JStr "HOU-2023-1703000000-0001"; JStr "HOU-2024-1706092000-3f2b8c1e"].
Proof. vm_compute. split; reflexivity. Qed.

(** C6 at its failing input: a submission without a case id gets an id
    made of the prefix, the year and the timestamp, with no random part,
    so that another submission in the same second gets the same id. The
    local endpoint, at the same clock reading, adds eight characters of a
    UUID. *)
Theorem github_allocated_id_has_no_random_part :
  (Sample.submit Sample.without_id Sample.now (Repo.start Repo.empty_repo)).1
    = Ok {| GitHub.success := true;
            GitHub.result_case_id := Some "HOU-2024-1706092000";
            GitHub.github_path := Some "cases/HOU-2024-1706092000/";
            GitHub.files_created := Some 1;
            GitHub.error := None |} ∧
  GitHub.resolve_case_id Sample.another_without_id Sample.now
    = GitHub.resolve_case_id Sample.without_id Sample.now ∧
  Main.allocate_case_id Sample.now "3f2b8c1e-0d6a-4b7e-9a51-6c2e8f1d4a70"
    = "HOU-2024-1706092000-3f2b8c1e".
Proof. vm_compute. repeat split; reflexivity. Qed.

(* ----------------------------------------------------------------- *)
(** ** The local record store *)

Lemma py_eq_true a b : py_eq a b = true ↔ a = b.
Proof. unfold py_eq. apply bool_decide_eq_true. Qed.

Lemma py_eq_false a b : py_eq a b = false ↔ a ≠ b.
Proof. unfold py_eq. apply bool_decide_eq_false. Qed.

Lemma rbind_ok_inv {A B} (r : result A) (k : A → result B) b :
  rbind r k = Ok b → ∃ a, r = Ok a ∧ k a = Ok b.
Proof. destruct r; simpl; [eauto | done]. Qed.

Lemma dict_item_ok (d : dict) k v : dict_item d k = Ok v → d !! k = Some v.
Proof. unfold dict_item. destruct (d !! k); [congruence | done]. Qed.

Lemma find_index_Some {A} (pred : A → bool) (l : list A) i :
  find_index pred l = Some i → ∃ x, l !! i = Some x ∧ pred x = true.
Proof.
  revert i. induction l as [|x l IH]; intros i; simpl; [done|].
  destruct (pred x) eqn:Hx.
  - intros [= <-]. eauto.
  - destruct (find_index pred l) as [j|]; simpl; [|done].
    intros [= <-]. by apply IH.
Qed.

Lemma find_index_None {A} (pred : A → bool) (l : list A) :
  find_index pred l = None → Forall (fun x => pred x = false) l.
Proof.
  induction l as [|x l IH]; simpl; [constructor|].
  destruct (pred x) eqn:Hx; [done|].
  destruct (find_index pred l); simpl; [done|]. intros _. constructor; auto.
Qed.

(** With the key in [case_data] the lookup of the upsert is the lookup
    of the other endpoints of main.py. *)
Lemma find_existing_with_id case_data key cases :
  case_data !! "case_id" = Some key →
  Main.find_existing case_data cases
  = Ok (find_index (fun c => py_eq (dict_get c "case_id") key) cases).
Proof.
  intros Hkey. destruct cases as [|c cases]; [done|].
  unfold Main.find_existing, dict_item. by rewrite Hkey.
Qed.

(** The upsert of main.py: a case list with distinct ids keeps them
    distinct, whether the record replaces one or is added. *)
Lemma update_case_database_keeps_ids_distinct case_data key st :
  case_data !! "case_id" = Some key →
  NoDup (case_ids (default [] (cases_db st))) →
  ∃ cases',
    Main.update_case_database case_data st
      = (Ok tt, set_cases_db cases' st) ∧
    NoDup (case_ids cases') ∧ case_data ∈ cases'.
Proof.
  intros Hkey Hnd. unfold Main.update_case_database.
  rewrite (find_existing_with_id _ _ _ Hkey).
  set (cases := default [] (cases_db st)) in *.
  assert (dict_get case_data "case_id" = key) as Hget
    by (unfold dict_get; by rewrite Hkey).
  destruct (find_index _ cases) as [i|] eqn:Hfind; eexists; (split; [done|]).
  - apply find_index_Some in Hfind as (c & Hc & Heq).
    apply py_eq_true in Heq. split.
    + unfold case_ids. rewrite list_fmap_insert, Hget.
      rewrite list_insert_id; [done|]. by rewrite list_lookup_fmap, Hc, <- Heq.
    + apply list_elem_of_lookup. exists i.
      apply list_lookup_insert_eq. by eapply lookup_lt_Some.
  - apply find_index_None in Hfind. split.
    + unfold case_ids. rewrite fmap_app. simpl. rewrite Hget.
      apply NoDup_app. split; [done|]. split; [|apply NoDup_singleton].
      intros k Hk Hin. apply list_elem_of_singleton in Hin as ->.
      apply list_elem_of_fmap in Hk as (c & -> & Hc).
      rewrite Forall_forall in Hfind. specialize (Hfind c Hc).
      by apply py_eq_false in Hfind.
    + apply elem_of_app. right. by apply list_elem_of_singleton.
Qed.

(** *** The frame of a status update *)

Lemma apply_status_updated status notes now c :
  status_updated status notes c (Main.apply_status status notes now c).
Proof.
  unfold status_updated, Main.apply_status, status_fields.
  assert (∀ k : string, k ∉ ["status"; "updated_at"; "admin_notes"] →
            k ≠ "status" ∧ k ≠ "updated_at" ∧ k ≠ "admin_notes") as Hout
    by (intros k Hk; repeat split; intros ->; apply Hk; set_solver).
  destruct (str_truthy notes) eqn:Hn; repeat split.
  - rewrite !lookup_insert_ne by done. apply lookup_insert_eq.
  - intros k (? & ? & ?)%Hout. by rewrite !lookup_insert_ne.
  - done.
  - rewrite lookup_insert_ne by done. apply lookup_insert_eq.
  - intros k (? & ? & ?)%Hout. by rewrite !lookup_insert_ne.
  - intros _. by rewrite !lookup_insert_ne.
Qed.

(** C10: a successful [update_case_status] changes one record of the case
    list, the first with that case id, and the [case_data.json] of that
    case when its directory exists. In both only [status], [updated_at]
    and, with notes, [admin_notes] change; every other field, every other
    record of the list, every other file of the case and every other
    case directory stay as they were. *)
Theorem update_case_status_frame case_id status notes now st res st' :
  Main.update_case_status case_id status notes now st = (Ok res, st') →
  status_frame case_id status notes st st'.
Proof.
  unfold Main.update_case_status, status_frame.
  destruct (cases_db st) as [cases|] eqn:Hdb; [|done].
  destruct (find_index _ cases) as [i|] eqn:Hfind; [|done].
  apply find_index_Some in Hfind as (c & Hc & Hid). apply py_eq_true in Hid.
  destruct (Main.update_case_json _ _ st) as [[[]|e] st1] eqn:Hjson; [|done].
  intros [= _ <-].
  exists cases, (alter (Main.apply_status status notes now) i cases), i, c,
    (Main.apply_status status notes now c).
  split; [done|]. split; [done|]. split; [done|]. split; [done|].
  split; [by rewrite list_lookup_alter_eq, Hc|].
  split; [apply apply_status_updated|].
  split; [apply length_alter|].
  split; [intros j Hj; by apply list_lookup_alter_ne|].
  unfold Main.update_case_json in Hjson. simpl.
  destruct (case_dirs st !! case_id) as [folder|] eqn:Hdir.
  - destruct (case_data_json folder) as [d|] eqn:Hd; [|done].
    injection Hjson as <-. unfold write_case_json. rewrite Hdir. simpl.
    split.
    + intros id Hne. by rewrite lookup_insert_ne.
    + exists d, (Main.apply_status status notes now d).
      split; [done|]. split; [by rewrite lookup_insert_eq|].
      apply apply_status_updated.
  - injection Hjson as <-. by rewrite Hdir.
Qed.

(** The update succeeds on a listed case whose directory, if any, holds
    its [case_data.json]. *)
Lemma update_case_status_succeeds case_id status notes now st cases i :
  cases_db st = Some cases →
  find_index (fun c => py_eq (dict_get c "case_id") (JStr case_id)) cases
    = Some i →
  (∀ folder, case_dirs st !! case_id = Some folder →
             is_Some (case_data_json folder)) →
  ∃ st',
    Main.update_case_status case_id status notes now st
    = (Ok {| Main.st_success := true; Main.st_case_id := case_id;
             Main.st_status := status |}, st').
Proof.
  intros Hdb Hfind Hfile. unfold Main.update_case_status, Main.update_case_json.
  rewrite Hdb, Hfind.
  destruct (case_dirs st !! case_id) as [folder|]; [|eauto].
  destruct (Hfile folder eq_refl) as [d ->]. eauto.
Qed.

Lemma update_case_status_frame_witness :
  status_frame "HOU-2024-1706091600-9012" "processing" (Some "documents checked")
    Sample.store
    (Main.update_case_status "HOU-2024-1706091600-9012" "processing"
       (Some "documents checked") Sample.later Sample.store).2.
Proof.
  apply (update_case_status_frame "HOU-2024-1706091600-9012" "processing"
           (Some "documents checked") Sample.later Sample.store
           {| Main.st_success := true;
              Main.st_case_id := "HOU-2024-1706091600-9012";
              Main.st_status := "processing" |}).
  vm_compute. reflexivity.
Defined.

(** *** filed ⇒ official_case_number *)







Lemma set_if_lookup_ne field key c k :
  k ≠ key → Dashboard.set_if field key c !! k = c !! k.
Proof.
  intros Hne. unfold Dashboard.set_if.
  destruct (str_truthy field); [by rewrite lookup_insert_ne|done].
Qed.










(** The status endpoint of main.py does the same. *)
Example update_case_status_files_without_number :
  ¬ store_inv
      (Main.update_case_status "HOU-2024-1706091600-9012" "filed" None
         Sample.later Sample.store).2.
Proof.
  intros [Hdb _]. revert Hdb. apply (bool_decide_eq_false_1 _).
  vm_compute. reflexivity.
Qed.

(** So does [assign_case_number] when the number it is given is the
    empty string: the case is filed under no number. *)
Example assign_case_number_accepts_empty_number :
  let run :=
    Main.assign_case_number "HOU-2024-1706091600-9012" EmptyString None
      Sample.later Sample.store in
  (Main.as_official_case_number <$>
     (match run.1 with Ok r => Some r | Raise _ => None end))
    = Some EmptyString ∧
  ¬ store_inv run.2.
Proof.
  split; [vm_compute; reflexivity|].
  intros [Hdb _]. revert Hdb. apply (bool_decide_eq_false_1 _).
  vm_compute. reflexivity.
Qed.

(* ----------------------------------------------------------------- *)
(** ** The monthly report and the CSV export *)

Section Report.
Import Dashboard.
Context `{PyLib}.
Open Scope Z_scope.

Lemma report_sum_perm f (r1 r2 : list (string * month_stats)) :
  r1 ≡ₚ r2 → report_sum f r1 = report_sum f r2.
Proof.
  induction 1 as [|x r1 r2 _ IH|x y r|r1 r2 r3 _ IH1 _ IH2]; simpl.
  - done.
  - by rewrite IH.
  - lia.
  - congruence.
Qed.

(** Storing the row of a month replaces what the month counted before. *)
Lemma report_sum_insert f (m : gmap string month_stats) k s :
  f new_month = 0 →
  report_sum f (map_to_list (<[k := s]> m))
  = report_sum f (map_to_list m) - f (default new_month (m !! k)) + f s.
Proof.
  intros Hzero. destruct (m !! k) as [old|] eqn:Hk; simpl.
  - rewrite <- (insert_delete_eq m k s).
    rewrite <- (insert_delete_id m k old Hk) at 2.
    rewrite !(report_sum_perm f _ _
                (map_to_list_insert _ _ _ (lookup_delete_eq m k))).
    simpl. lia.
  - rewrite (report_sum_perm f _ _ (map_to_list_insert _ _ _ Hk)).
    simpl. lia.
Qed.

(** One case adds one to the totals, and one to the filed counts when
    its status is filed. *)
Lemma count_case_sums case m m' :
  count_case case m = Ok m' →
  report_sum total (map_to_list m') = report_sum total (map_to_list m) + 1 ∧
  report_sum filed (map_to_list m')
  = report_sum filed (map_to_list m)
    + (if decide (has_status "filed" case) then 1 else 0).
Proof.
  unfold count_case. intros Hrun.
  apply rbind_ok_inv in Hrun as (month_key & _ & Hrun).
  apply rbind_ok_inv in Hrun as (amount & _ & Hrun).
  apply rbind_ok_inv in Hrun as (status & Hstatus & Hrun).
  injection Hrun as <-.
  rewrite !report_sum_insert by done.
  apply dict_item_ok in Hstatus.
  destruct (py_eq status (JStr "filed")) eqn:Hfiled.
  - apply py_eq_true in Hfiled as ->.
    rewrite decide_True by done. simpl. lia.
  - apply py_eq_false in Hfiled.
    rewrite decide_False by (unfold has_status; congruence).
    destruct (py_eq status (JStr "rejected")); [simpl; lia|].
    destruct (_ || _); simpl; lia.
Qed.

Lemma group_by_month_sums cases m m' :
  group_by_month cases m = Ok m' →
  report_sum total (map_to_list m')
  = report_sum total (map_to_list m) + Z.of_nat (length cases) ∧
  report_sum filed (map_to_list m')
  = report_sum filed (map_to_list m)
    + Z.of_nat (length (filter (has_status "filed") cases)).
Proof.
  revert m. induction cases as [|case cases IH]; intros m; simpl.
  - intros [= <-]. lia.
  - intros Hrun. apply rbind_ok_inv in Hrun as (m1 & Hcase & Hrun).
    apply count_case_sums in Hcase as [Ht Hf].
    apply IH in Hrun as [Ht' Hf']. rewrite Ht', Hf', Ht, Hf.
    rewrite filter_cons.
    destruct (decide (has_status "filed" case)); simpl; lia.
Qed.

Lemma csv_append_length cases acc lines :
  csv_append cases acc = Ok lines →
  length lines = (length acc + length cases)%nat.
Proof.
  revert acc. induction cases as [|case cases IH]; intros acc; simpl.
  - intros [= <-]. lia.
  - intros Hrun. apply rbind_ok_inv in Hrun as (row & _ & Hrun).
    apply IH in Hrun. rewrite Hrun, length_app. simpl. lia.
Qed.

(** C8: the monthly report and the CSV export of one store reconcile.
    The [total] column of the report sums to the number of cases, its
    [filed] column to the number of cases whose status is filed, and
    the CSV has one line per case after its header. *)
Theorem monthly_report_reconciles st report :
  get_monthly_report st = Ok report →
  report_sum total report = Z.of_nat (length (load_cases st)) ∧
  report_sum filed report
  = Z.of_nat (length (filter (has_status "filed") (load_cases st))) ∧
  ∀ lines, csv_lines st = Ok lines →
           length lines = S (length (load_cases st)).
Proof.
  unfold get_monthly_report, csv_lines. intros Hreport.
  apply rbind_ok_inv in Hreport as (m & Hgroup & [= <-]).
  apply group_by_month_sums in Hgroup as [Ht Hf].
  rewrite !(report_sum_perm _ _ _ (merge_sort_Permutation _ _)).
  rewrite Ht, Hf, map_to_list_empty. simpl.
  split; [done|]. split; [done|].
  intros lines Hcsv. by apply csv_append_length in Hcsv.
Qed.

Lemma group_by_month_total cases m :
  Forall reportable cases → ∃ m', group_by_month cases m = Ok m'.
Proof.
  intros Hall. revert m.
  induction Hall as [|case cases Hcase _ IH]; intros m.
  - simpl. eauto.
  - destruct Hcase as ((s & month & Hs & Hmonth) & (n & Hn) & (v & Hv)).
    simpl. unfold count_case, month_key_of, dict_item.
    rewrite Hs. simpl. rewrite Hmonth. simpl. rewrite Hn. simpl.
    rewrite Hv. simpl. apply IH.
Qed.

(** The report is produced whenever every record is well formed. *)
Lemma get_monthly_report_total st :
  Forall reportable (load_cases st) →
  ∃ report, get_monthly_report st = Ok report.
Proof.
  intros Hall. unfold get_monthly_report.
  destruct (group_by_month_total _ ∅ Hall) as [m ->]. simpl. eauto.
Qed.

End Report.

Lemma monthly_report_reconciles_witness :
  report_sum Dashboard.total Sample.report
    = Z.of_nat (length (Dashboard.load_cases Sample.store)) ∧
  report_sum Dashboard.filed Sample.report
    = Z.of_nat (length (filter (has_status "filed")
                          (Dashboard.load_cases Sample.store))) ∧
  ∀ lines, @Dashboard.csv_lines Sample.pylib Sample.store = Ok lines →
           length lines = S (length (Dashboard.load_cases Sample.store)).
Proof.
  apply (@monthly_report_reconciles Sample.pylib Sample.store Sample.report).
  vm_compute. reflexivity.
Defined.

(** The store of the sample is reportable, and its CSV is the expected
    one. *)
Example sample_csv_lines :
  @Dashboard.csv_lines Sample.pylib Sample.store = Ok Sample.csv.
Proof. vm_compute. reflexivity. Qed.

(* ----------------------------------------------------------------- *)
(** ** More on main.py: upsert, submission, case numbers *)

Lemma find_index_first {A} (pred : A → bool) (l : list A) i :
  find_index pred l = Some i →
  ∀ j y, (j < i)%nat → l !! j = Some y → pred y = false.
Proof.
  revert i. induction l as [|x l IH]; intros i; simpl; [done|].
  destruct (pred x) eqn:Hx.
  - intros [= <-] j y Hj. lia.
  - destruct (find_index pred l) as [k|]; simpl; [|done].
    intros [= <-] [|j] y Hj; simpl.
    + by intros [= <-].
    + apply (IH k eq_refl). lia.
Qed.

Lemma find_index_intro {A} (pred : A → bool) (l : list A) i x :
  l !! i = Some x → pred x = true →
  (∀ j y, (j < i)%nat → l !! j = Some y → pred y = false) →
  find_index pred l = Some i.
Proof.
  revert i. induction l as [|a l IH]; intros i; [done|].
  destruct i as [|i]; simpl.
  - intros [= ->] -> _. done.
  - intros Hx Hp Hbefore.
    rewrite (Hbefore 0 a ltac:(lia) eq_refl).
    rewrite (IH i Hx Hp); [done|].
    intros j y Hj Hy. apply (Hbefore (S j) y); [lia|done].
Qed.


(** The run of [update_case_database] on a record with an id. *)
Lemma update_case_database_run case_data key st :
  case_data !! "case_id" = Some key →
  ∃ cases' i,
    Main.update_case_database case_data st = (Ok tt, set_cases_db cases' st) ∧
    find_index (fun c => py_eq (dict_get c "case_id") key) cases' = Some i ∧
    cases' !! i = Some case_data ∧
    (∀ j, j ≠ i → cases' !! j = default [] (cases_db st) !! j) ∧
    (length (default [] (cases_db st)) ≤ length cases'
       ≤ S (length (default [] (cases_db st))))%nat.
Proof.
  intros Hkey. unfold Main.update_case_database.
  rewrite (find_existing_with_id _ _ _ Hkey).
  set (cases := default [] (cases_db st)).
  assert (py_eq (dict_get case_data "case_id") key = true) as Hmine
    by (apply py_eq_true; unfold dict_get; by rewrite Hkey).
  destruct (find_index _ cases) as [i|] eqn:Hfind.
  - pose proof (find_index_first _ _ _ Hfind) as Hfirst.
    apply find_index_Some in Hfind as (c & Hc & _).
    apply lookup_lt_Some in Hc as Hlt.
    exists (<[i := case_data]> cases), i. split; [done|].
    split; [|split; [|split]].
    + eapply find_index_intro; [by apply list_lookup_insert_eq|done|].
      intros j y Hj. rewrite list_lookup_insert_ne by lia. by apply Hfirst.
    + by apply list_lookup_insert_eq.
    + intros j Hj. by rewrite list_lookup_insert_ne.
    + rewrite length_insert. lia.
  - apply find_index_None in Hfind.
    exists (cases ++ [case_data]), (length cases). split; [done|].
    split; [|split; [|split]].
    + eapply find_index_intro; [by apply list_lookup_middle|done|].
      intros j y Hj. rewrite lookup_app_l by done. intros Hy.
      rewrite Forall_forall in Hfind. apply Hfind.
      by eapply list_elem_of_lookup_2.
    + by apply list_lookup_middle.
    + intros j Hj. destruct (decide (j < length cases)%nat).
      * by rewrite lookup_app_l.
      * rewrite !lookup_ge_None_2; [done|lia|]. rewrite length_app. simpl. lia.
    + rewrite length_app. simpl. lia.
Qed.

(** X1: [update_case_database] is an upsert. Afterwards the first record
    found under the id of [case_data] is [case_data] itself, every other
    position of the list holds what it held, the list grew by at most
    one record, and ids that were distinct are still distinct. *)
Theorem update_case_database_upsert case_data key st :
  case_data !! "case_id" = Some key →
  ∃ cases' i,
    Main.update_case_database case_data st = (Ok tt, set_cases_db cases' st) ∧
    find_index (fun c => py_eq (dict_get c "case_id") key) cases' = Some i ∧
    cases' !! i = Some case_data ∧
    (∀ j, j ≠ i → cases' !! j = default [] (cases_db st) !! j) ∧
    (length (default [] (cases_db st)) ≤ length cases'
       ≤ S (length (default [] (cases_db st))))%nat ∧
    (NoDup (case_ids (default [] (cases_db st))) → NoDup (case_ids cases')).
Proof.
  intros Hkey.
  destruct (update_case_database_run case_data key st Hkey)
    as (cases' & i & Hrun & Hfind & Hi & Hother & Hlen).
  exists cases', i. do 5 (split; [done|]). intros Hnd.
  destruct (update_case_database_keeps_ids_distinct _ _ st Hkey Hnd)
    as (cases'' & Hrun' & Hnd' & _).
  rewrite Hrun in Hrun'. by injection Hrun' as ->.
Qed.

Lemma update_case_database_upsert_witness :
  ∃ cases' i,
    Main.update_case_database Sample.approved_case Sample.store
      = (Ok tt, set_cases_db cases' Sample.store) ∧
    find_index
      (fun c => py_eq (dict_get c "case_id") (JStr "HOU-2024-1706091600-9012"))
      cases' = Some i ∧
    cases' !! i = Some Sample.approved_case ∧
    (∀ j, j ≠ i → cases' !! j = default [] (cases_db Sample.store) !! j) ∧
    (length (default [] (cases_db Sample.store)) ≤ length cases'
       ≤ S (length (default [] (cases_db Sample.store))))%nat ∧
    (NoDup (case_ids (default [] (cases_db Sample.store))) →
     NoDup (case_ids cases')).
Proof.
  apply (update_case_database_upsert Sample.approved_case
           (JStr "HOU-2024-1706091600-9012") Sample.store).
  vm_compute. reflexivity.
Defined.

(** *** What a submission leaves in the store *)

Lemma stored_record_write_case_file st id id' name b :
  stored_record (write_case_file id name b st) id' = stored_record st id'.
Proof.
  unfold stored_record, write_case_file. simpl.
  destruct (decide (id = id')) as [->|Hne].
  - rewrite lookup_insert_eq. simpl. by destruct (case_dirs st !! id').
  - by rewrite lookup_insert_ne.
Qed.

Lemma submitted_record_built sub id now :
  submitted_record sub id now
    (<["signature_data" := of_opt_str (Main.signature_data sub)]>
     (<["status" := JStr "submitted"]>
     (<["submitted_at" := JStr (now_isoformat now)]>
     (<["case_id" := JStr id]> (Main.case_data sub))))).
Proof.
  unfold submitted_record, same_outside, submit_keys.
  repeat split.
  - by rewrite !lookup_insert_ne, lookup_insert_eq by done.
  - by rewrite !lookup_insert_ne, lookup_insert_eq by done.
  - by rewrite !lookup_insert_ne, lookup_insert_eq by done.
  - by rewrite lookup_insert_eq.
  - intros k Hk. rewrite !lookup_insert_ne; [done|..];
      intros <-; apply Hk; set_solver.
Qed.

Lemma stored_record_written st id d :
  stored_record (write_case_json id d (mkdir_exist_ok id st)) id = Some d.
Proof.
  unfold stored_record, write_case_json. simpl. by rewrite lookup_insert_eq.
Qed.

Lemma cases_db_written st id d :
  cases_db (write_case_json id d (mkdir_exist_ok id st)) = cases_db st.
Proof.
  unfold write_case_json, mkdir_exist_ok. simpl.
  by destruct (case_dirs st !! id).
Qed.

Lemma never_decodes_raises b :
  never_decodes b → b64decode b = Raise (ValueError "binascii.Error").
Proof. by intros (s & -> & _). Qed.

Lemma string_length_append (s1 s2 : string) :
  String.length (s1 +:+ s2) = (String.length s1 + String.length s2)%nat.
Proof.
  induction s1 as [|a s1 IH]; [done|].
  change (S (String.length (s1 +:+ s2))
          = S (String.length s1 + String.length s2)). by rewrite IH.
Qed.

Lemma append_suffix_inj (suffix s1 s2 : string) :
  s1 +:+ suffix = s2 +:+ suffix → s1 = s2.
Proof.
  revert s2. induction s1 as [|a s1 IH]; intros [|b s2]; try done.
  - intros Heq. apply (f_equal String.length) in Heq.
    rewrite !string_length_append in Heq. simpl in Heq. lia.
  - intros Heq. apply (f_equal String.length) in Heq.
    rewrite !string_length_append in Heq. simpl in Heq. lia.
  - change (String a (s1 +:+ suffix) = String b (s2 +:+ suffix) →
            String a s1 = String b s2).
    intros [= -> Heq]. f_equal. by apply IH.
Qed.

Lemma stored_files_write st id name b :
  stored_files (write_case_file id name b st) id
  = <[name := b]> (stored_files st id).
Proof.
  unfold stored_files, write_case_file. simpl. by rewrite lookup_insert_eq.
Qed.

Lemma case_dirs_write_other st id name b id' :
  id' ≠ id →
  case_dirs (write_case_file id name b st) !! id' = case_dirs st !! id'.
Proof.
  intros Hne. unfold write_case_file. simpl. by rewrite lookup_insert_ne.
Qed.

Section Submission.
Context `{FileSystem} `{ExnText}.

(** A document that decodes and has a plain name is written into the
    case directory. *)
Lemma save_documents_step id t x docs st :
  plain_document (t, Base64 x) →
  Main.save_documents id ((t, Base64 x) :: docs) st
  = Main.save_documents id docs (write_case_file id (t +:+ ".pdf") x st).
Proof.
  unfold plain_document. simpl. intros Hplain.
  unfold Main.write_document. by rewrite Hplain.
Qed.

Lemma save_documents_decoded id docs st :
  Forall decodes docs → Forall plain_document docs →
  ∃ st', Main.save_documents id docs st = (Ok tt, st') ∧
         cases_db st' = cases_db st ∧
         ∀ id', stored_record st' id' = stored_record st id'.
Proof.
  intros Hall. revert st.
  induction Hall as [|[t b] docs [x Hx] _ IH]; intros st Hplain.
  - simpl. eauto.
  - simpl in Hx. subst b. apply Forall_cons in Hplain as [Ht Hplain].
    rewrite save_documents_step by done.
    destruct (IH (write_case_file id (t +:+ ".pdf") x st) Hplain)
      as (st' & -> & Hdb & Hrec).
    exists st'. split; [done|]. split; [done|].
    intros id'. by rewrite Hrec, stored_record_write_case_file.
Qed.

Lemma save_documents_undecodable id pre t b post st :
  Forall decodes pre → Forall plain_document pre → never_decodes b →
  ∃ st', Main.save_documents id (pre ++ (t, b) :: post) st
           = (Raise (ValueError "binascii.Error"), st') ∧
         cases_db st' = cases_db st ∧
         ∀ id', stored_record st' id' = stored_record st id'.
Proof.
  intros Hall Hplain Hb. revert st Hplain.
  induction Hall as [|[t0 b0] pre [x Hx] _ IH]; intros st Hplain.
  - simpl. rewrite (never_decodes_raises _ Hb). eauto.
  - simpl in Hx. subst b0. apply Forall_cons in Hplain as [Ht Hplain].
    change (((t0, Base64 x) :: pre) ++ (t, b) :: post)
      with ((t0, Base64 x) :: (pre ++ (t, b) :: post)).
    rewrite save_documents_step by done.
    destruct (IH (write_case_file id (t0 +:+ ".pdf") x st) Hplain)
      as (st' & -> & Hdb & Hrec).
    exists st'. split; [done|]. split; [done|].
    intros id'. by rewrite Hrec, stored_record_write_case_file.
Qed.

(** X2: when every document decodes and has a type that makes a plain
    file name, [submit_case] of main.py succeeds with the allocated id.
    The record it built (the case fields with [case_id], [submitted_at],
    [status] "submitted" and [signature_data] set by the server) is both
    the [case_data.json] of the case and a record of the case list, and
    a status update on the returned id then succeeds. *)
Theorem submit_case_stores_record sub now uuid4 st :
  Forall decodes (Main.documents sub) →
  Forall plain_document (Main.documents sub) →
  let id := Main.allocate_case_id now uuid4 in
  ∃ resp st' record cases',
    Main.submit_case sub now uuid4 st = (Ok resp, st') ∧
    Main.success resp = true ∧ Main.case_id resp = id ∧
    submitted_record sub id now record ∧
    stored_record st' id = Some record ∧
    cases_db st' = Some cases' ∧ record ∈ cases' ∧
    ∀ status notes later, ∃ st'',
      Main.update_case_status id status notes later st'
      = (Ok {| Main.st_success := true; Main.st_case_id := id;
               Main.st_status := status |}, st'').
Proof.
  intros Hdocs Hplain id. unfold Main.submit_case. fold id.
  set (record := <["signature_data" := _]> _).
  set (st1 := write_case_json id record (mkdir_exist_ok id st)).
  destruct (save_documents_decoded id _ st1 Hdocs Hplain)
    as (st2 & -> & Hdb & Hrec).
  assert (record !! "case_id" = Some (JStr id)) as Hid
    by apply submitted_record_built.
  destruct (update_case_database_run record (JStr id) st2 Hid)
    as (cases' & i & -> & Hfind & Hi & _).
  eexists _, _, record, cases'. split; [done|].
  split; [done|]. split; [done|].
  split; [apply submitted_record_built|].
  assert (stored_record (set_cases_db cases' st2) id = Some record) as Hstored.
  { unfold stored_record. simpl. fold (stored_record st2 id).
    rewrite Hrec. apply stored_record_written. }
  split; [done|]. split; [done|].
  split; [by eapply list_elem_of_lookup_2|].
  intros status notes later.
  eapply update_case_status_succeeds; [done|done|].
  intros folder Hfolder. unfold stored_record in Hstored.
  rewrite Hfolder in Hstored. simpl in Hstored. by rewrite Hstored.
Qed.

(** X3: when a document is text that base64 decoding refuses, and the
    documents before it were stored, [submit_case] of main.py fails with
    status 500 and a detail that starts with [Submission failed: ]. The
    case list is as it was, yet the [case_data.json] of the new case has
    been written: the directory stays behind without an entry in the
    list. *)
Theorem submit_case_failure_leaves_orphan sub now uuid4 st pre t b post :
  Main.documents sub = pre ++ (t, b) :: post →
  Forall decodes pre → Forall plain_document pre → never_decodes b →
  let id := Main.allocate_case_id now uuid4 in
  ∃ st' record e,
    Main.submit_case sub now uuid4 st
      = (Raise (HTTPException 500 ("Submission failed: " +:+ str_exn e)),
         st') ∧
    cases_db st' = cases_db st ∧
    submitted_record sub id now record ∧
    stored_record st' id = Some record.
Proof.
  intros Hdocs Hpre Hplain Hb id. unfold Main.submit_case. fold id.
  rewrite Hdocs.
  set (record := <["signature_data" := _]> _).
  set (st1 := write_case_json id record (mkdir_exist_ok id st)).
  destruct (save_documents_undecodable id pre t b post st1 Hpre Hplain Hb)
    as (st2 & -> & Hdb & Hrec).
  exists st2, record. eexists. split; [done|].
  split; [by rewrite Hdb; apply cases_db_written|].
  split; [apply submitted_record_built|].
  rewrite Hrec. apply stored_record_written.
Qed.

(** X4: the document loop of main.py, given documents that decode and
    whose types are distinct and make plain file names, stores every
    document, decoded, under [<doc_type>.pdf] in the directory of the
    case. It touches no other file of that directory, not its
    [case_data.json], not the case list and no other directory. *)
Theorem save_documents_stores_decoded case_id docs st :
  Forall decodes docs → Forall plain_document docs → NoDup docs.*1 →
  ∃ st',
    Main.save_documents case_id docs st = (Ok tt, st') ∧
    (∀ doc_type pdf_data,
        (doc_type, Base64 pdf_data) ∈ docs →
        stored_files st' case_id !! (doc_type +:+ ".pdf") = Some pdf_data) ∧
    (∀ name, (∀ doc_type, doc_type ∈ docs.*1 → name ≠ doc_type +:+ ".pdf") →
             stored_files st' case_id !! name
             = stored_files st case_id !! name) ∧
    stored_record st' case_id = stored_record st case_id ∧
    cases_db st' = cases_db st ∧
    ∀ id, id ≠ case_id → case_dirs st' !! id = case_dirs st !! id.
Proof.
  intros Hall. revert st.
  induction Hall as [|[t b] docs [x Hx] _ IH]; intros st Hplain Hnd.
  - exists st. split; [done|]. split; [|done].
    intros ? ? Hin. by apply elem_of_nil in Hin.
  - simpl in Hx. subst b. apply Forall_cons in Hplain as [Ht Hplain].
    apply NoDup_cons in Hnd as [Hfresh Hnd].
    rewrite save_documents_step by done.
    destruct (IH (write_case_file case_id (t +:+ ".pdf") x st) Hplain Hnd)
      as (st' & Hrun & Hdocs & Hrest & Hrec & Hdb & Hdirs).
    exists st'. split; [done|]. split; [|split; [|split; [|split]]].
    + intros doc_type pdf_data [[= -> ->]|Hin]%elem_of_cons.
      * rewrite Hrest.
        -- rewrite stored_files_write. apply lookup_insert_eq.
        -- intros t' Ht' Heq. apply append_suffix_inj in Heq as <-. done.
      * by apply Hdocs.
    + intros name Hname. rewrite Hrest.
      * rewrite stored_files_write. rewrite lookup_insert_ne; [done|].
        intros <-. apply (Hname t); [left|done].
      * intros t' Ht'. apply Hname. by right.
    + unfold stored_record in *. rewrite Hrec. unfold write_case_file. simpl.
      rewrite lookup_insert_eq. simpl. by destruct (case_dirs st !! case_id).
    + done.
    + intros id Hne. rewrite Hdirs by done. by apply case_dirs_write_other.
Qed.

End Submission.

Lemma sample_documents_decode :
  Forall decodes (Main.documents Sample.paper_submission).
Proof. repeat constructor; eexists; reflexivity. Defined.

Lemma sample_documents_plain :
  Forall plain_document (Main.documents Sample.paper_submission).
Proof. repeat constructor; reflexivity. Defined.

Lemma submit_case_stores_record_witness :
  ∃ resp st' record cases',
    @Main.submit_case Sample.filesystem Sample.torn_text
      Sample.paper_submission Sample.now Sample.uuid4 Sample.store
      = (Ok resp, st') ∧
    Main.success resp = true ∧
    Main.case_id resp = Main.allocate_case_id Sample.now Sample.uuid4 ∧
    submitted_record Sample.paper_submission
      (Main.allocate_case_id Sample.now Sample.uuid4) Sample.now record ∧
    stored_record st' (Main.allocate_case_id Sample.now Sample.uuid4)
      = Some record ∧
    cases_db st' = Some cases' ∧ record ∈ cases' ∧
    ∀ status notes later, ∃ st'',
      Main.update_case_status (Main.allocate_case_id Sample.now Sample.uuid4)
        status notes later st'
      = (Ok {| Main.st_success := true;
               Main.st_case_id := Main.allocate_case_id Sample.now Sample.uuid4;
               Main.st_status := status |}, st'').
Proof.
  apply (@submit_case_stores_record Sample.filesystem Sample.torn_text
           Sample.paper_submission Sample.now Sample.uuid4 Sample.store).
  - exact sample_documents_decode.
  - exact sample_documents_plain.
Defined.

Lemma submit_case_failure_leaves_orphan_witness :
  ∃ st' record e,
    @Main.submit_case Sample.filesystem Sample.torn_text
      Sample.torn_submission Sample.now Sample.uuid4 Sample.store
      = (Raise (HTTPException 500
                  ("Submission failed: " +:+ @str_exn Sample.torn_text e)),
         st') ∧
    cases_db st' = cases_db Sample.store ∧
    submitted_record Sample.torn_submission
      (Main.allocate_case_id Sample.now Sample.uuid4) Sample.now record ∧
    stored_record st' (Main.allocate_case_id Sample.now Sample.uuid4)
      = Some record.
Proof.
  apply (@submit_case_failure_leaves_orphan Sample.filesystem
           Sample.torn_text Sample.torn_submission Sample.now
           Sample.uuid4 Sample.store
           [("demand_notice", Base64 (Bytes "%PDF notice"))]
           "affidavit" (Bytes "not base64")
           [("summons", Base64 (Bytes "%PDF summons"))]).
  - reflexivity.
  - repeat constructor; eexists; reflexivity.
  - repeat constructor; reflexivity.
  - exists "not base64". split; [reflexivity|]. split; [reflexivity|].
    vm_compute. discriminate.
Defined.

Lemma save_documents_stores_decoded_witness :
  let docs := Main.documents Sample.paper_submission in
  ∃ st',
    @Main.save_documents Sample.filesystem "HOU-2024-1706091600-9012" docs
      Sample.store = (Ok tt, st') ∧
    (∀ doc_type pdf_data,
        (doc_type, Base64 pdf_data) ∈ docs →
        stored_files st' "HOU-2024-1706091600-9012" !! (doc_type +:+ ".pdf")
          = Some pdf_data) ∧
    (∀ name, (∀ doc_type, doc_type ∈ docs.*1 → name ≠ doc_type +:+ ".pdf") →
             stored_files st' "HOU-2024-1706091600-9012" !! name
             = stored_files Sample.store "HOU-2024-1706091600-9012" !! name) ∧
    stored_record st' "HOU-2024-1706091600-9012"
      = stored_record Sample.store "HOU-2024-1706091600-9012" ∧
    cases_db st' = cases_db Sample.store ∧
    ∀ id, id ≠ "HOU-2024-1706091600-9012" →
          case_dirs st' !! id = case_dirs Sample.store !! id.
Proof.
  apply (@save_documents_stores_decoded Sample.filesystem
           "HOU-2024-1706091600-9012"
           (Main.documents Sample.paper_submission) Sample.store).
  - exact sample_documents_decode.
  - exact sample_documents_plain.
  - apply (bool_decide_unpack _). vm_compute. exact I.
Defined.

(** *** Status and case number: errors and effect *)

(** X5: [update_case_status] and [assign_case_number] fail in three ways
    only (no case list, no record with the id, a case directory without
    its [case_data.json]), and a failure leaves the store as it was, the
    case list included. *)
Theorem status_errors_leave_store_unchanged st :
  (∀ case_id status notes now e st',
      Main.update_case_status case_id status notes now st = (Raise e, st') →
      st' = st ∧
      (e = HTTPException 404 "Case database not found" ∨
       e = HTTPException 404 "Case not found" ∨
       e = FileNotFoundError "case_data.json")) ∧
  (∀ case_id case_number filing_date now e st',
      Main.assign_case_number case_id case_number filing_date now st
        = (Raise e, st') →
      st' = st ∧
      (e = HTTPException 404 "Case database not found" ∨
       e = HTTPException 404 "Case not found" ∨
       e = FileNotFoundError "case_data.json")).
Proof.
  split.
  - intros case_id status notes now e st'.
    unfold Main.update_case_status, Main.update_case_json.
    destruct (cases_db st); [|intros [= <- <-]; eauto].
    destruct (find_index _ _); [|intros [= <- <-]; eauto].
    destruct (case_dirs st !! case_id) as [folder|]; [|done].
    destruct (case_data_json folder); [done|]. intros [= <- <-]. eauto.
  - intros case_id number filing_date now e st'.
    unfold Main.assign_case_number, Main.update_case_json.
    destruct (cases_db st); [|intros [= <- <-]; eauto].
    destruct (find_index _ _); [|intros [= <- <-]; eauto].
    destruct (case_dirs st !! case_id) as [folder|]; [|done].
    destruct (case_data_json folder); [done|]. intros [= <- <-]. eauto.
Qed.




(* ----------------------------------------------------------------- *)
(** ** More on dashboard_api.py: lookups, updates, exports, statistics *)

(** X7: on a case list in which every record has a [case_id] the lookup
    of dashboard_api.py finds what the lookup of main.py finds. A record
    without [case_id] that comes before any match makes it raise
    [KeyError] instead of answering 404. *)
Theorem find_case_index_agrees case_id cases :
  (Forall (fun c => is_Some (c !! "case_id")) cases →
   Dashboard.find_case_index case_id cases
   = Ok (find_index (fun c => py_eq (dict_get c "case_id") (JStr case_id))
           cases)) ∧
  (∀ pre c post,
      cases = pre ++ c :: post →
      Forall (fun c => is_Some (c !! "case_id") ∧
                       c !! "case_id" ≠ Some (JStr case_id)) pre →
      c !! "case_id" = None →
      Dashboard.find_case_index case_id cases = Raise (KeyError "case_id")).
Proof.
  split.
  - induction 1 as [|c cases [v Hv] _ IH]; [done|].
    simpl. unfold dict_item, dict_get. rewrite Hv. simpl.
    destruct (py_eq v (JStr case_id)); [done|]. by rewrite IH.
  - intros pre c post -> Hpre Hc.
    induction Hpre as [|a pre [[v Hv] Hne] _ IH]; simpl.
    + unfold dict_item. by rewrite Hc.
    + unfold dict_item. rewrite Hv. simpl.
      destruct (py_eq v (JStr case_id)) eqn:Heq.
      * apply py_eq_true in Heq. congruence.
      * by rewrite IH.
Qed.

Lemma set_if_falsy field key c :
  str_truthy field = false → Dashboard.set_if field key c = c.
Proof. unfold Dashboard.set_if. by intros ->. Qed.

Lemma apply_update_empty update username now c :
  empty_update update → Dashboard.apply_update update username now c = c.
Proof.
  intros (Hs & Hn & Hf & Hc & Hr). unfold Dashboard.apply_update.
  rewrite Hs. by rewrite !set_if_falsy.
Qed.

(** X8: an [update_case] whose fields are all missing or empty strings
    leaves the store as it was, whether it finds the case or not. *)
Theorem update_case_without_fields_is_noop case_id update username now st :
  empty_update update →
  (Dashboard.update_case case_id update username now st).2 = st.
Proof.
  intros Hempty. unfold Dashboard.update_case, Dashboard.load_cases.
  destruct (cases_db st) as [cases|] eqn:Hdb; simpl.
  - destruct (Dashboard.find_case_index case_id cases) as [[i|]|e]; [|done..].
    simpl. rewrite list_alter_id by (intros c; by apply apply_update_empty).
    unfold Dashboard.save_cases, set_cases_db. destruct st; simpl in *.
    by rewrite Hdb.
  - done.
Qed.

Lemma update_case_without_fields_is_noop_witness :
  (Dashboard.update_case "HOU-2024-1706091600-9012" Sample.no_change "admin"
     Sample.later Sample.store).2 = Sample.store.
Proof.
  apply (update_case_without_fields_is_noop "HOU-2024-1706091600-9012"
           Sample.no_change "admin" Sample.later Sample.store).
  repeat split; reflexivity.
Defined.

Lemma set_if_lookup field key c :
  field_set field key (Dashboard.set_if field key c).
Proof.
  intros Ht. unfold Dashboard.set_if. rewrite Ht. by rewrite lookup_insert_eq.
Qed.

Lemma apply_update_fields update username now c :
  let c' := Dashboard.apply_update update username now c in
  same_outside update_keys c c' ∧
  field_set (Dashboard.status update) "status" c' ∧
  (str_truthy (Dashboard.status update) = true →
   c' !! "assigned_by" = Some (JStr username) ∧
   c' !! "assigned_at" = Some (JStr (now_isoformat now))) ∧
  field_set (Dashboard.official_case_number update) "official_case_number" c' ∧
  field_set (Dashboard.filing_date update) "filing_date" c' ∧
  field_set (Dashboard.clerk_notes update) "clerk_notes" c' ∧
  field_set (Dashboard.rejection_reason update) "rejection_reason" c'.
Proof.
  unfold Dashboard.apply_update, field_set. cbv zeta.
  split; [|split; [|split; [|split; [|split; [|split]]]]].
  - intros k Hk.
    assert (k ≠ "status" ∧ k ≠ "assigned_by" ∧ k ≠ "assigned_at" ∧
            k ≠ "official_case_number" ∧ k ≠ "filing_date" ∧
            k ≠ "clerk_notes" ∧ k ≠ "rejection_reason")
      as (? & ? & ? & ? & ? & ? & ?)
      by (repeat split; intros ->; apply Hk; unfold update_keys; set_solver).
    rewrite !set_if_lookup_ne by done.
    destruct (str_truthy (Dashboard.status update)); [|done].
    by rewrite !lookup_insert_ne.
  - intros Ht. rewrite !set_if_lookup_ne by done. rewrite Ht.
    by rewrite !lookup_insert_ne, lookup_insert_eq by done.
  - intros Ht. rewrite !set_if_lookup_ne by done. rewrite Ht. split.
    + by rewrite lookup_insert_ne, lookup_insert_eq by done.
    + by rewrite lookup_insert_eq.
  - rewrite !set_if_lookup_ne by done. apply set_if_lookup.
  - rewrite !set_if_lookup_ne by done. apply set_if_lookup.
  - rewrite !set_if_lookup_ne by done. apply set_if_lookup.
  - apply set_if_lookup.
Qed.

Lemma find_case_index_found case_id cases i :
  Dashboard.find_case_index case_id cases = Ok (Some i) →
  ∃ c, cases !! i = Some c ∧ c !! "case_id" = Some (JStr case_id).
Proof.
  revert i. induction cases as [|a cases IH]; intros i; simpl; [done|].
  intros Hrun. apply rbind_ok_inv in Hrun as (v & Hv%dict_item_ok & Hrun).
  destruct (py_eq v (JStr case_id)) eqn:Heq.
  - injection Hrun as <-. apply py_eq_true in Heq as ->. eauto.
  - apply rbind_ok_inv in Hrun as ([j|] & Hrest & [= <-]). by apply IH.
Qed.

(** X9: a successful [update_case] returns the record it stored. That
    record replaces one record with the id in the case list; it holds
    every non-empty field of the update and differs from the old record
    in no key other than status, assigned_by, assigned_at,
    official_case_number, filing_date, clerk_notes and rejection_reason.
    The case directories, and so every [case_data.json], are not
    touched. *)
Theorem update_case_frame case_id update username now st c' st' :
  Dashboard.update_case case_id update username now st = (Ok c', st') →
  case_dirs st' = case_dirs st ∧
  ∃ i c,
    Dashboard.load_cases st !! i = Some c ∧
    c !! "case_id" = Some (JStr case_id) ∧
    cases_db st' = Some (<[i := c']> (Dashboard.load_cases st)) ∧
    same_outside update_keys c c' ∧
    field_set (Dashboard.status update) "status" c' ∧
    field_set (Dashboard.official_case_number update)
      "official_case_number" c' ∧
    field_set (Dashboard.filing_date update) "filing_date" c' ∧
    field_set (Dashboard.clerk_notes update) "clerk_notes" c' ∧
    field_set (Dashboard.rejection_reason update) "rejection_reason" c'.
Proof.
  unfold Dashboard.update_case.
  destruct (Dashboard.find_case_index _ _) as [[i|]|e] eqn:Hfind; [|done..].
  apply find_case_index_found in Hfind as (c & Hc & Hid).
  rewrite list_lookup_alter_eq, Hc. simpl. intros [= <- <-].
  split; [done|]. exists i, c. split; [done|]. split; [done|].
  split.
  { simpl. f_equal. apply list_eq. intros j.
    destruct (decide (j = i)) as [->|Hne].
    - rewrite list_lookup_alter_eq, Hc.
      by rewrite list_lookup_insert_eq by by eapply lookup_lt_Some.
    - by rewrite list_lookup_alter_ne, list_lookup_insert_ne. }
  pose proof (apply_update_fields update username now c) as Hfields.
  cbv zeta in Hfields. destruct Hfields as (? & ? & _ & ? & ? & ? & ?).
  by repeat split.
Qed.

Lemma update_case_frame_witness :
  let run :=
    Dashboard.update_case "HOU-2024-1706091600-9012" Sample.file_with_number
      "admin" Sample.later Sample.store in
  let c' := Dashboard.apply_update Sample.file_with_number "admin"
              Sample.later Sample.approved_case in
  case_dirs run.2 = case_dirs Sample.store ∧
  ∃ i c,
    Dashboard.load_cases Sample.store !! i = Some c ∧
    c !! "case_id" = Some (JStr "HOU-2024-1706091600-9012") ∧
    cases_db run.2 = Some (<[i := c']> (Dashboard.load_cases Sample.store)) ∧
    same_outside update_keys c c' ∧
    field_set (Dashboard.status Sample.file_with_number) "status" c' ∧
    field_set (Dashboard.official_case_number Sample.file_with_number)
      "official_case_number" c' ∧
    field_set (Dashboard.filing_date Sample.file_with_number)
      "filing_date" c' ∧
    field_set (Dashboard.clerk_notes Sample.file_with_number)
      "clerk_notes" c' ∧
    field_set (Dashboard.rejection_reason Sample.file_with_number)
      "rejection_reason" c'.
Proof.
  apply (update_case_frame "HOU-2024-1706091600-9012" Sample.file_with_number
           "admin" Sample.later Sample.store).
  vm_compute. reflexivity.
Defined.

Section MoreReports.
Import Dashboard.
Context `{PyLib}.

Lemma csv_row_ok case :
  csv_exportable case ↔ ∃ row, csv_row case = Ok row.
Proof.
  unfold csv_exportable, csv_columns, csv_row, dict_item.
  rewrite !Forall_cons, Forall_nil. split.
  - intros ([? ->] & [? ->] & [? ->] & [? ->] & [? ->] & [? ->] & [? ->] & _).
    simpl. eauto.
  - intros [row Hrow].
    repeat match type of Hrow with
    | rbind (match ?x with _ => _ end) _ = _ =>
        destruct x eqn:?; simpl in Hrow; [|done]
    end.
    repeat split; eauto.
Qed.

Lemma csv_append_ok cases acc :
  Forall csv_exportable cases ↔ ∃ lines, csv_append cases acc = Ok lines.
Proof.
  revert acc. induction cases as [|case cases IH]; intros acc; simpl.
  - split; [eauto|constructor].
  - rewrite Forall_cons. split.
    + intros [[row ->]%csv_row_ok Hrest]. simpl. by apply IH.
    + intros [lines Hrun].
      apply rbind_ok_inv in Hrun as (row & Hrow & Hrun). split.
      * apply csv_row_ok. eauto.
      * eapply IH. eauto.
Qed.

(** X10: the CSV export succeeds exactly when every record has the seven
    keys it reads with a subscript (case_id, landlord_name, tenant_name,
    property_address, amount_owed, status, submitted_at); a record
    without one of them makes the whole export raise. The official case
    number and the filing date may be missing. *)
Theorem csv_export_needs_its_columns st :
  (∃ body, export_cases_csv st = Ok body) ↔
  Forall csv_exportable (load_cases st).
Proof.
  unfold export_cases_csv, csv_lines.
  rewrite (csv_append_ok _ [csv_header]). split.
  - intros [body Hrun]. apply rbind_ok_inv in Hrun as (lines & -> & _). eauto.
  - intros [lines ->]. simpl. eauto.
Qed.

Lemma count_case_ok case m :
  countable case ↔ ∃ m', count_case case m = Ok m'.
Proof.
  unfold countable, count_case, month_key_of, dict_item. split.
  - intros ((s & month & -> & Hmonth) & (v & n & -> & Hn) & (status & ->)).
    simpl. rewrite Hmonth. simpl. rewrite Hn. simpl. eauto.
  - intros [m' Hrun].
    destruct (case !! "submitted_at") as [[| | |s| |]|]; simpl in Hrun;
      try done.
    destruct (iso_month s) as [month|] eqn:Hmonth; simpl in Hrun; [|done].
    destruct (case !! "amount_owed") as [v|]; simpl in Hrun; [|done].
    destruct (as_number v) as [n|] eqn:Hn; simpl in Hrun; [|done].
    destruct (case !! "status") as [status|]; simpl in Hrun; [|done].
    split; [eauto|]. split; eauto.
Qed.

Lemma group_by_month_ok cases m :
  Forall countable cases ↔ ∃ m', group_by_month cases m = Ok m'.
Proof.
  revert m. induction cases as [|case cases IH]; intros m; simpl.
  - split; [eauto|constructor].
  - rewrite Forall_cons. split.
    + intros [[m1 ->]%(count_case_ok _ m) Hrest]. simpl. by apply IH.
    + intros [m' Hrun].
      apply rbind_ok_inv in Hrun as (m1 & Hcase & Hrun). split.
      * eapply count_case_ok. eauto.
      * eapply IH. eauto.
Qed.

(** X11: the monthly report is produced exactly when every record has a
    [submitted_at] string that parses as an ISO date, a numeric
    [amount_owed] and a [status]; one record short of that makes the
    whole report raise. *)
Theorem monthly_report_needs_its_fields st :
  (∃ report, get_monthly_report st = Ok report) ↔
  Forall countable (load_cases st).
Proof.
  unfold get_monthly_report. rewrite (group_by_month_ok _ ∅). split.
  - intros [report Hrun]. apply rbind_ok_inv in Hrun as (m & -> & _). eauto.
  - intros [m ->]. simpl. eauto.
Qed.

Global Instance month_desc_total : Total month_desc.
Proof.
  intros a b. unfold month_desc.
  destruct (String.leb_total b.1 a.1); auto.
Qed.

Lemma count_case_dom case m m' :
  count_case case m = Ok m' →
  ∃ month, month_key_of case = Ok month ∧ dom m' = {[month]} ∪ dom m.
Proof.
  unfold count_case. intros Hrun.
  apply rbind_ok_inv in Hrun as (month_key & Hmonth & Hrun).
  apply rbind_ok_inv in Hrun as (amount & _ & Hrun).
  apply rbind_ok_inv in Hrun as (status & _ & Hrun).
  injection Hrun as <-. exists month_key. split; [done|].
  by rewrite dom_insert_L.
Qed.

Lemma group_by_month_dom cases m m' :
  group_by_month cases m = Ok m' →
  ∀ month, month ∈ dom m' ↔
           month ∈ dom m ∨ ∃ case, case ∈ cases ∧ month_key_of case = Ok month.
Proof.
  revert m. induction cases as [|case cases IH]; intros m; simpl.
  - intros [= <-] month. split; [auto|]. intros [?|(c & Hc & _)]; [done|].
    by apply elem_of_nil in Hc.
  - intros Hrun. apply rbind_ok_inv in Hrun as (m1 & Hcase & Hrun).
    apply count_case_dom in Hcase as (mk & Hmk & Hdom).
    intros month. rewrite (IH _ Hrun), Hdom. split.
    + intros [[->%elem_of_singleton|?]%elem_of_union|(c & Hc & Hm)].
      * right. exists case. split; [left|done].
      * by left.
      * right. exists c. split; [by right|done].
    + intros [?|(c & Hc & Hm)].
      * left. apply elem_of_union. by right.
      * apply elem_of_cons in Hc as [->|Hc].
        -- left. rewrite Hmk in Hm. injection Hm as ->.
           apply elem_of_union. left. by apply elem_of_singleton.
        -- right. eauto.
Qed.

(** X12: the rows of the monthly report come newest month first, no
    month has two rows, and the months listed are exactly the months in
    which some case was submitted. *)
Theorem monthly_report_rows st report :
  get_monthly_report st = Ok report →
  Sorted month_desc report ∧
  NoDup report.*1 ∧
  ∀ month, month ∈ report.*1 ↔
           ∃ case, case ∈ load_cases st ∧ month_key_of case = Ok month.
Proof.
  unfold get_monthly_report. intros Hrun.
  apply rbind_ok_inv in Hrun as (m & Hgroup & [= <-]).
  pose proof (merge_sort_Permutation month_desc (map_to_list m)) as Hperm.
  split; [apply (Sorted_merge_sort _)|]. split.
  - rewrite Hperm. apply NoDup_fst_map_to_list.
  - intros month. rewrite Hperm. transitivity (month ∈ dom m).
    + rewrite elem_of_dom. split.
      * intros [[k s] [-> Hin]]%list_elem_of_fmap.
        apply elem_of_map_to_list in Hin. simpl. eauto.
      * intros [s Hs]. apply list_elem_of_fmap. exists (month, s).
        split; [done|]. by apply elem_of_map_to_list.
    + rewrite (group_by_month_dom _ _ _ Hgroup), dom_empty_L. split; [|auto].
      intros [Hin|?]; [|done]. by apply not_elem_of_empty in Hin.
Qed.

Open Scope Z_scope.

Lemma count_case_columns case m m' :
  count_case case m = Ok m' →
  report_sum rejected (map_to_list m')
  = report_sum rejected (map_to_list m)
    + (if decide (has_status "rejected" case) then 1 else 0) ∧
  report_sum pending (map_to_list m')
  = report_sum pending (map_to_list m)
    + (if decide (is_pending case) then 1 else 0).
Proof.
  unfold count_case. intros Hrun.
  apply rbind_ok_inv in Hrun as (month_key & _ & Hrun).
  apply rbind_ok_inv in Hrun as (amount & Hamount & Hrun).
  apply rbind_ok_inv in Hrun as (status & Hstatus & Hrun).
  injection Hrun as <-.
  rewrite !report_sum_insert by done.
  apply dict_item_ok in Hstatus.
  destruct (decide (has_status "rejected" case)) as [Hr|Hr],
    (decide (is_pending case)) as [Hp|Hp];
    unfold is_pending, has_status in Hr, Hp; rewrite Hstatus in Hr, Hp;
    destruct (py_eq status (JStr "filed")) eqn:E1;
    destruct (py_eq status (JStr "rejected")) eqn:E2;
    destruct (py_eq status (JStr "submitted")) eqn:E3;
    destruct (py_eq status (JStr "processing")) eqn:E4;
    destruct (py_eq status (JStr "approved")) eqn:E5;
    rewrite ?py_eq_true, ?py_eq_false in *; simpl; try lia;
    exfalso; subst; try congruence; intuition congruence.
Qed.

Lemma group_by_month_columns cases m m' :
  group_by_month cases m = Ok m' →
  report_sum rejected (map_to_list m')
  = report_sum rejected (map_to_list m)
    + Z.of_nat (length (filter (has_status "rejected") cases)) ∧
  report_sum pending (map_to_list m')
  = report_sum pending (map_to_list m)
    + Z.of_nat (length (filter is_pending cases)).
Proof.
  revert m. induction cases as [|case cases IH]; intros m; simpl.
  - intros [= <-]. lia.
  - intros Hrun. apply rbind_ok_inv in Hrun as (m1 & Hcase & Hrun).
    apply count_case_columns in Hcase as (Hr & Hp).
    apply IH in Hrun as (Hr' & Hp'). rewrite Hr', Hp', Hr, Hp.
    rewrite !filter_cons.
    destruct (decide (has_status "rejected" case)),
      (decide (is_pending case)); simpl; lia.
Qed.

Lemma filed_rejected_pending_bounded (cases : list dict) :
  (length (filter (has_status "filed") cases)
   + length (filter (has_status "rejected") cases)
   + length (filter is_pending cases) ≤ length cases)%nat.
Proof.
  induction cases as [|c cases IH]; [simpl; lia|].
  rewrite !filter_cons. simpl length.
  destruct (decide (has_status "filed" c)) as [Hf1|],
    (decide (has_status "rejected" c)) as [Hr1|],
    (decide (is_pending c)) as [Hp1|]; simpl length; try lia;
    exfalso; unfold is_pending, has_status in *; intuition congruence.
Qed.

Lemma pending_counts_add_up (cases : list dict) :
  (length (filter (has_status "submitted") cases)
   + length (filter (has_status "processing") cases)
   + length (filter (has_status "approved") cases))%nat
  = length (filter is_pending cases).
Proof.
  induction cases as [|c cases IH]; [done|].
  rewrite !filter_cons.
  destruct (decide (has_status "submitted" c)) as [H1|H1],
    (decide (has_status "processing" c)) as [H2|H2],
    (decide (has_status "approved" c)) as [H3|H3],
    (decide (is_pending c)) as [Hp1|Hp1]; simpl length; try lia;
    exfalso; unfold is_pending, has_status in *; intuition congruence.
Qed.

(** X13: in the monthly report the [rejected] column sums to the number
    of rejected cases and the [pending] column to the number of cases
    that are submitted, processing or approved. A case with any other
    status is counted in [total] alone, so the three status columns
    together never exceed [total]. *)
Theorem monthly_report_columns st report :
  get_monthly_report st = Ok report →
  report_sum rejected report
  = Z.of_nat (length (filter (has_status "rejected") (load_cases st))) ∧
  report_sum pending report
  = Z.of_nat (length (filter is_pending (load_cases st))) ∧
  report_sum filed report + report_sum rejected report
    + report_sum pending report ≤ report_sum total report.
Proof.
  unfold get_monthly_report. intros Hrun.
  apply rbind_ok_inv in Hrun as (m & Hgroup & [= <-]).
  pose proof (group_by_month_sums _ _ _ Hgroup) as [Ht Hf].
  apply group_by_month_columns in Hgroup as (Hr & Hp).
  rewrite !(report_sum_perm _ _ _ (merge_sort_Permutation _ _)).
  rewrite Ht, Hf, Hr, Hp, map_to_list_empty. simpl.
  split; [done|]. split; [done|].
  pose proof (filed_rejected_pending_bounded (load_cases st)). lia.
Qed.

End MoreReports.

Lemma sample_report_ok :
  @Dashboard.get_monthly_report Sample.pylib Sample.store = Ok Sample.report.
Proof. vm_compute. reflexivity. Defined.

Lemma monthly_report_rows_witness :
  Sorted Dashboard.month_desc Sample.report ∧
  NoDup Sample.report.*1 ∧
  ∀ month, month ∈ Sample.report.*1 ↔
           ∃ case, case ∈ Dashboard.load_cases Sample.store ∧
                   @Dashboard.month_key_of Sample.pylib case = Ok month.
Proof.
  apply (@monthly_report_rows Sample.pylib Sample.store Sample.report).
  exact sample_report_ok.
Defined.

Lemma monthly_report_columns_witness :
  (report_sum Dashboard.rejected Sample.report
   = Z.of_nat (length (filter (has_status "rejected")
                         (Dashboard.load_cases Sample.store))) ∧
   report_sum Dashboard.pending Sample.report
   = Z.of_nat (length (filter is_pending
                         (Dashboard.load_cases Sample.store))) ∧
   report_sum Dashboard.filed Sample.report
     + report_sum Dashboard.rejected Sample.report
     + report_sum Dashboard.pending Sample.report
   ≤ report_sum Dashboard.total Sample.report)%Z.
Proof.
  apply (@monthly_report_columns Sample.pylib Sample.store Sample.report).
  exact sample_report_ok.
Defined.

Section Statistics.
Import Dashboard Stats.
Context `{DateLib}.

Lemma count_status_filter status cases n :
  count_status status cases = Ok n →
  n = length (filter (has_status status) cases).
Proof.
  revert n. induction cases as [|c cases IH]; intros n; simpl.
  - by intros [= <-].
  - intros Hrun. apply rbind_ok_inv in Hrun as (v & Hv%dict_item_ok & Hrun).
    apply rbind_ok_inv in Hrun as (k & Hk & [= <-]).
    rewrite filter_cons. apply IH in Hk as ->.
    destruct (decide (has_status status c)) as [Hs|Hs];
      unfold has_status in Hs; rewrite Hv in Hs;
      destruct (py_eq v (JStr status)) eqn:Heq;
      rewrite ?py_eq_true, ?py_eq_false in Heq; simpl; congruence.
Qed.

Lemma submitted_this_week_sublist now cases kept :
  submitted_this_week now cases = Ok kept → kept `sublist_of` cases.
Proof.
  revert kept. induction cases as [|c cases IH]; intros kept; simpl.
  - by intros [= <-].
  - intros Hrun. apply rbind_ok_inv in Hrun as (v & _ & Hrun).
    apply rbind_ok_inv in Hrun as (keep & _ & Hrun).
    apply rbind_ok_inv in Hrun as (rest & Hrest & [= <-]).
    apply IH in Hrest. destruct keep; by constructor.
Qed.

Lemma status_counts_bounded (cases : list dict) :
  (length (filter (has_status "submitted") cases)
   + length (filter (has_status "processing") cases)
   + length (filter (has_status "approved") cases)
   + length (filter (has_status "rejected") cases)
   + length (filter (has_status "filed") cases)
   ≤ length cases)%nat.
Proof.
  induction cases as [|c cases IH]; [simpl; lia|].
  rewrite !filter_cons. simpl length.
  destruct (decide (has_status "submitted" c)),
    (decide (has_status "processing" c)),
    (decide (has_status "approved" c)),
    (decide (has_status "rejected" c)),
    (decide (has_status "filed" c)); simpl length; try lia;
    exfalso; unfold has_status in *; congruence.
Qed.

(** X14: when [get_dashboard_stats] answers, each of its five counters is
    the number of records with that status, the five together never
    exceed [total_cases] (a record with another status is in the total
    only), and [recent_submissions] holds at most five records, taken
    from the case list in its order. *)
Theorem dashboard_stats_counts now st stats :
  get_dashboard_stats now st = Ok stats →
  total_cases stats = length (load_cases st) ∧
  pending_review stats
    = length (filter (has_status "submitted") (load_cases st)) ∧
  processing stats
    = length (filter (has_status "processing") (load_cases st)) ∧
  approved stats = length (filter (has_status "approved") (load_cases st)) ∧
  Stats.rejected stats
    = length (filter (has_status "rejected") (load_cases st)) ∧
  court_filed stats = length (filter (has_status "filed") (load_cases st)) ∧
  (pending_review stats + processing stats + approved stats
   + Stats.rejected stats + court_filed stats ≤ total_cases stats)%nat ∧
  (length (recent_submissions stats) ≤ 5)%nat ∧
  recent_submissions stats `sublist_of` load_cases st.
Proof.
  intros Hrun. unfold get_dashboard_stats in Hrun.
  apply rbind_ok_inv in Hrun as (week & Hweek & Hrun).
  apply rbind_ok_inv in Hrun as (n1 & H1%count_status_filter & Hrun).
  apply rbind_ok_inv in Hrun as (n2 & H2%count_status_filter & Hrun).
  apply rbind_ok_inv in Hrun as (n3 & H3%count_status_filter & Hrun).
  apply rbind_ok_inv in Hrun as (n4 & H4%count_status_filter & Hrun).
  apply rbind_ok_inv in Hrun as (n5 & H5%count_status_filter & Hrun).
  injection Hrun as <-. simpl. subst.
  do 6 (split; [done|]).
  split; [apply status_counts_bounded|]. split.
  - rewrite length_take. lia.
  - etransitivity; [apply sublist_take|].
    by eapply submitted_this_week_sublist.
Qed.

(** X15: the statistics and the monthly report of one store agree: the
    filed and rejected counters are the sums of those columns of the
    report, the three counters of cases under way add up to the sum of
    its [pending] column, and [total_cases] is the sum of [total]. *)
Theorem stats_agree_with_monthly_report `{PyLib} now st stats report :
  get_dashboard_stats now st = Ok stats →
  get_monthly_report st = Ok report →
  Z.of_nat (court_filed stats) = report_sum filed report ∧
  Z.of_nat (Stats.rejected stats) = report_sum Dashboard.rejected report ∧
  Z.of_nat (pending_review stats + processing stats + approved stats)
  = report_sum pending report ∧
  Z.of_nat (total_cases stats) = report_sum total report.
Proof.
  unfold get_dashboard_stats, get_monthly_report. intros Hrun Hreport.
  apply rbind_ok_inv in Hrun as (week & Hweek & Hrun).
  apply rbind_ok_inv in Hrun as (n1 & H1%count_status_filter & Hrun).
  apply rbind_ok_inv in Hrun as (n2 & H2%count_status_filter & Hrun).
  apply rbind_ok_inv in Hrun as (n3 & H3%count_status_filter & Hrun).
  apply rbind_ok_inv in Hrun as (n4 & H4%count_status_filter & Hrun).
  apply rbind_ok_inv in Hrun as (n5 & H5%count_status_filter & Hrun).
  injection Hrun as <-. simpl. subst.
  apply rbind_ok_inv in Hreport as (m & Hgroup & [= <-]).
  pose proof (group_by_month_sums _ _ _ Hgroup) as [Ht Hf].
  apply group_by_month_columns in Hgroup as (Hr & Hp).
  rewrite !(report_sum_perm _ _ _ (merge_sort_Permutation _ _)).
  rewrite Ht, Hf, Hr, Hp, map_to_list_empty. simpl.
  split; [done|]. split; [done|]. split; [|done].
  by rewrite pending_counts_add_up.
Qed.

End Statistics.

Lemma naive_report_ok :
  @Dashboard.get_monthly_report Sample.pylib Sample.naive_store
  = Ok Sample.naive_report.
Proof. vm_compute. reflexivity. Defined.

Lemma sample_stats_ok :
  @Stats.get_dashboard_stats Sample.datelib Sample.now Sample.naive_store
  = Ok Sample.stats.
Proof. vm_compute. reflexivity. Defined.

Lemma dashboard_stats_counts_witness :
  Stats.total_cases Sample.stats
    = length (Dashboard.load_cases Sample.naive_store) ∧
  Stats.pending_review Sample.stats
    = length (filter (has_status "submitted")
                (Dashboard.load_cases Sample.naive_store)) ∧
  Stats.processing Sample.stats
    = length (filter (has_status "processing")
                (Dashboard.load_cases Sample.naive_store)) ∧
  Stats.approved Sample.stats
    = length (filter (has_status "approved")
                (Dashboard.load_cases Sample.naive_store)) ∧
  Stats.rejected Sample.stats
    = length (filter (has_status "rejected")
                (Dashboard.load_cases Sample.naive_store)) ∧
  Stats.court_filed Sample.stats
    = length (filter (has_status "filed")
                (Dashboard.load_cases Sample.naive_store)) ∧
  (Stats.pending_review Sample.stats + Stats.processing Sample.stats
   + Stats.approved Sample.stats + Stats.rejected Sample.stats
   + Stats.court_filed Sample.stats ≤ Stats.total_cases Sample.stats)%nat ∧
  (length (Stats.recent_submissions Sample.stats) ≤ 5)%nat ∧
  Stats.recent_submissions Sample.stats
    `sublist_of` Dashboard.load_cases Sample.naive_store.
Proof.
  apply (@dashboard_stats_counts Sample.datelib Sample.now Sample.naive_store
           Sample.stats).
  exact sample_stats_ok.
Defined.

Lemma stats_agree_with_monthly_report_witness :
  Z.of_nat (Stats.court_filed Sample.stats)
    = report_sum Dashboard.filed Sample.naive_report ∧
  Z.of_nat (Stats.rejected Sample.stats)
    = report_sum Dashboard.rejected Sample.naive_report ∧
  Z.of_nat (Stats.pending_review Sample.stats + Stats.processing Sample.stats
            + Stats.approved Sample.stats)
    = report_sum Dashboard.pending Sample.naive_report ∧
  Z.of_nat (Stats.total_cases Sample.stats)
    = report_sum Dashboard.total Sample.naive_report.
Proof.
  apply (@stats_agree_with_monthly_report Sample.datelib Sample.pylib
           Sample.now Sample.naive_store Sample.stats Sample.naive_report).
  - exact sample_stats_ok.
  - exact naive_report_ok.
Defined.

(* ----------------------------------------------------------------- *)
(** ** More on github_submitter.py: the requests sent, the endpoint *)

Section MoreSubmitter.
Import GitHub.
Context {W : Type} `{Remote W}.

Lemma raise_for_status_run (r : response) (s : session W) :
  raise_for_status r s = (let? _ := checked r in Ok tt, s).
Proof.
  unfold raise_for_status, checked, rejected, raise, ret.
  destruct (decide _) as [[Hlo Hhi]|Hno].
  - apply Z.leb_le in Hlo. apply Z.ltb_lt in Hhi. by rewrite Hlo, Hhi.
  - destruct (400 <=? status_code r)%Z eqn:Hlo; simpl; [|done].
    destruct (status_code r <? 600)%Z eqn:Hhi; simpl; [|done].
    apply Z.leb_le in Hlo. apply Z.ltb_lt in Hhi. by destruct Hno.
Qed.

Lemma http_get_run url (s : session W) :
  http_get url s
  = ((requests_get url (remote s)).1,
     {| remote := (requests_get url (remote s)).2;
        calls := calls s ++ [GET url (requests_get url (remote s)).1] |}).
Proof. unfold http_get. by destruct (requests_get url (remote s)). Qed.

Lemma http_put_run url data (s : session W) :
  http_put url data s
  = ((requests_put url data (remote s)).1,
     {| remote := (requests_put url data (remote s)).2;
        calls := calls s
                   ++ [PUT url data (requests_put url data (remote s)).1] |}).
Proof. unfold http_put. by destruct (requests_put url data (remote s)). Qed.

Lemma lift_run {A} (r : result A) (s : session W) : lift r s = (r, s).
Proof. done. Qed.

(** The second half of [create_file]: the PUT, its check and the
    parsing of its answer. *)
Lemma create_file_put_run url data (s : session W) :
  (response <- http_put url data ;;
   raise_for_status response ;;
   lift (response_json response))%gh s
  = (put_outcome (requests_put url data (remote s)).1,
     {| remote := (requests_put url data (remote s)).2;
        calls := calls s
                   ++ [PUT url data (requests_put url data (remote s)).1] |}).
Proof.
  pose proof (http_put_run url data s) as Hput.
  destruct (requests_put url data (remote s)) as [[r|e] w]; cbn [fst snd] in *.
  - rewrite (bind_ok _ _ _ _ _ Hput). unfold put_outcome. cbn [rbind].
    pose proof (raise_for_status_run r
      {| remote := w; calls := calls s ++ [PUT url data (Ok r)] |}) as Hcheck.
    destruct (checked r) as [r'|e]; cbn [rbind] in *.
    + by rewrite (bind_ok _ _ _ _ _ Hcheck).
    + by rewrite (bind_raise _ _ _ _ _ Hcheck).
  - by rewrite (bind_raise _ _ _ _ _ Hput).
Qed.

(** The [sha] of the file that a 200 answer describes. *)
Lemma existing_sha_found (g : response) token :
  json_sha g = Some token →
  (let? existing_file := response_json g in
   let? s := json_subscript existing_file sha_of "sha" in Ok (Some s))
  = Ok (Some token).
Proof.
  unfold json_sha, response_json, json_subscript.
  destruct (body g) as [| |c [t|]]; simpl; congruence.
Qed.

Lemma existing_sha_missing (g : response) :
  json_sha g = None →
  ∃ e, (let? existing_file := response_json g in
        let? s := json_subscript existing_file sha_of "sha" in Ok (Some s))
       = Raise e.
Proof.
  unfold json_sha, response_json, json_subscript.
  destruct (body g) as [| |c [t|]]; simpl; [eauto..|done|eauto].
Qed.

(** X16: [create_file] sends one GET to the contents url of the path.
    When the GET raises, or answers 200 with a body in which no [sha] is
    found, [create_file] raises and sends nothing more. In every other
    case it sends one PUT to the same url, with the message and the
    content as given ([is_binary] changes nothing), with the [sha] of a
    200 answer and without one after any other status. What it returns
    is then decided by the answer to the PUT: the exception of the
    request, an [HTTPError] for a 4xx or 5xx status, else the parsed
    body or the error of parsing it. *)
Theorem create_file_protocol self path content message is_binary s :
  let url := contents_url self path in
  let run := create_file self path content message is_binary s in
  let sends g w token :=
    let data := {| GitHub.message := message;
                   GitHub.content := content;
                   GitHub.sha := token |} in
    let put := requests_put url data w in
    run = (put_outcome put.1,
           {| remote := put.2;
              calls := calls s ++ [GET url (Ok g); PUT url data put.1] |}) in
  (∀ e w, requests_get url (remote s) = (Raise e, w) →
          run = (Raise e,
                 {| remote := w; calls := calls s ++ [GET url (Raise e)] |})) ∧
  (∀ g w, requests_get url (remote s) = (Ok g, w) →
          status_code g ≠ 200%Z → sends g w None) ∧
  (∀ g w token, requests_get url (remote s) = (Ok g, w) →
                status_code g = 200%Z → json_sha g = Some token →
                sends g w (Some token)) ∧
  (∀ g w, requests_get url (remote s) = (Ok g, w) →
          status_code g = 200%Z → json_sha g = None →
          ∃ e, run = (Raise e,
                      {| remote := w;
                         calls := calls s ++ [GET url (Ok g)] |})).
Proof.
  cbv zeta. unfold create_file. cbv zeta.
  generalize (contents_url self path). intros url.
  assert ((if negb is_binary then content else content) = content) as ->
    by by destruct is_binary.
  pose proof (http_get_run url s) as Hget.
  split; [|split; [|split]].
  - intros e w Hw. rewrite Hw in Hget. cbn [fst snd] in Hget.
    by rewrite (bind_raise _ _ _ _ _ Hget).
  - intros g w Hw Hstatus. rewrite Hw in Hget. cbn [fst snd] in Hget.
    rewrite (bind_ok _ _ _ _ _ Hget).
    apply Z.eqb_neq in Hstatus. rewrite Hstatus.
    erewrite bind_ok; [|reflexivity].
    rewrite create_file_put_run. cbn [remote calls].
    by rewrite <- app_assoc.
  - intros g w token Hw Hstatus Htoken. rewrite Hw in Hget.
    cbn [fst snd] in Hget. rewrite (bind_ok _ _ _ _ _ Hget).
    rewrite Hstatus. cbn [Z.eqb Pos.eqb]. rewrite (existing_sha_found _ _ Htoken).
    erewrite bind_ok; [|reflexivity].
    rewrite create_file_put_run. cbn [remote calls].
    by rewrite <- app_assoc.
  - intros g w Hw Hstatus Htoken. rewrite Hw in Hget.
    cbn [fst snd] in Hget. rewrite (bind_ok _ _ _ _ _ Hget).
    rewrite Hstatus. cbn [Z.eqb Pos.eqb].
    destruct (existing_sha_missing _ Htoken) as [e ->].
    exists e. by erewrite bind_raise; [|reflexivity].
Qed.

(** The run of [update_case_index] once the GET has answered and the
    index has been read. *)
Lemma update_case_index_run self case_id sub now s g w1 index_data token entry
    index_data' :
  requests_get (contents_url self index_path) (remote s) = (Ok g, w1) →
  read_index g = Ok (index_data, token) →
  index_entry case_id sub now = Ok entry →
  append_case index_data entry = Ok index_data' →
  let url := contents_url self index_path in
  let data := index_put_data case_id index_data' token in
  let p := (requests_put url data w1).1 in
  update_case_index self case_id sub now s
  = (let? r := p in let? _ := checked r in Ok tt,
     {| remote := (requests_put url data w1).2;
        calls := calls s ++ [GET url (Ok g); PUT url data p] |}).
Proof.
  intros Hget Hread Hentry Happend. cbv zeta. unfold update_case_index.
  cbv zeta. generalize dependent (contents_url self index_path). intros url Hget.
  pose proof (http_get_run url s) as Hrun. rewrite Hget in Hrun.
  cbn [fst snd] in Hrun. rewrite (bind_ok _ _ _ _ _ Hrun).
  rewrite Hread. erewrite bind_ok; [|reflexivity]. cbv beta iota.
  rewrite Hentry. erewrite bind_ok; [|reflexivity].
  rewrite Happend. erewrite bind_ok; [|reflexivity].
  pose proof (http_put_run url (index_put_data case_id index_data' token)
    {| remote := w1; calls := calls s ++ [GET url (Ok g)] |}) as Hput.
  cbn [remote calls] in Hput. rewrite <- app_assoc in Hput.
  destruct (requests_put url _ w1) as [[resp|e] w2]; cbn [fst snd] in *.
  - by rewrite (bind_ok _ _ _ _ _ Hput), raise_for_status_run.
  - by rewrite (bind_raise _ _ _ _ _ Hput).
Qed.

(** X17: when the GET of the index answers 200 with a JSON object whose
    [cases] is a list, [update_case_index] PUTs back the same object with
    the new entry appended to that list: no earlier entry is dropped,
    changed or compared with the new one. The PUT carries the [sha] of
    the GET, unless that is the empty string. *)
Theorem index_update_keeps_entries self case_id sub now s g w1 m l token entry :
  requests_get (contents_url self index_path) (remote s) = (Ok g, w1) →
  status_code g = 200%Z →
  json_content g = Some (Base64 (JsonText (JObj m))) →
  m !! "cases" = Some (JArr l) →
  json_sha g = Some token →
  index_entry case_id sub now = Ok entry →
  ∃ p,
    calls (update_case_index self case_id sub now s).2
    = calls s ++
      [GET (contents_url self index_path) (Ok g);
       PUT (contents_url self index_path)
         {| GitHub.message := "Update index with case " +:+ case_id;
            GitHub.content :=
              Base64 (JsonText (JObj (<["cases" := JArr (l ++ [entry])]> m)));
            GitHub.sha := if decide (token = EmptyString) then None
                          else Some token |} p].
Proof.
  intros Hget Hstatus Hcontent Hcases Htoken Hentry.
  assert (read_index g = Ok (JObj m, Some token)) as Hread.
  { unfold read_index, response_json, json_subscript.
    unfold json_content, json_sha in Hcontent, Htoken. rewrite Hstatus.
    destruct (body g) as [| |c t]; simpl in *; [done..|].
    by rewrite Hcontent, Htoken. }
  rewrite (update_case_index_run self case_id sub now s g w1 _ _ _ _
             Hget Hread Hentry (append_case_appends m l entry Hcases)).
  cbn [snd calls]. unfold index_put_data, b64encode, json_dumps, str_truthy.
  destruct (decide (token = EmptyString)) as [Hempty|Hfull].
  - rewrite bool_decide_eq_true_2 by done. simpl. eauto.
  - rewrite bool_decide_eq_false_2 by done. simpl. eauto.
Qed.

(** X18: on any answer other than 200 to the GET of the index, be it
    404 or a server error, [update_case_index] PUTs an index that holds
    the new entry alone, without a [sha]. *)
Theorem index_update_without_index self case_id sub now s g w1 entry :
  requests_get (contents_url self index_path) (remote s) = (Ok g, w1) →
  status_code g ≠ 200%Z →
  index_entry case_id sub now = Ok entry →
  ∃ p,
    calls (update_case_index self case_id sub now s).2
    = calls s ++
      [GET (contents_url self index_path) (Ok g);
       PUT (contents_url self index_path)
         {| GitHub.message := "Update index with case " +:+ case_id;
            GitHub.content :=
              Base64 (JsonText (JObj (<["cases" := JArr [entry]]> ∅)));
            GitHub.sha := None |} p].
Proof.
  intros Hget Hstatus Hentry.
  assert (read_index g = Ok (JObj (<["cases" := JArr []]> ∅), None)) as Hread
    by (unfold read_index; apply Z.eqb_neq in Hstatus; by rewrite Hstatus).
  rewrite (update_case_index_run self case_id sub now s g w1 _ _ _ _
             Hget Hread Hentry
             (append_case_appends _ [] entry (lookup_insert_eq _ _ _))).
  eexists. cbn [snd calls]. unfold index_put_data, b64encode, json_dumps.
  simpl. by rewrite insert_insert_eq.
Qed.

Lemma create_file_ok_shape self path content message is_binary s r s' :
  create_file self path content message is_binary s = (Ok r, s') →
  call_shape <$> calls s'
  = (call_shape <$> calls s) ++ write_of (contents_url self path).
Proof.
  unfold create_file. cbv zeta. intros Hrun.
  apply bind_ok_inv in Hrun as (g & s1 & Hget & Hrun).
  apply bind_ok_inv in Hrun as (token & s2 & Hlift & Hrun).
  apply bind_ok_inv in Hrun as (resp & s3 & Hput & Hrun).
  apply bind_ok_inv in Hrun as ([] & s4 & Hcheck & Hrun).
  rewrite http_get_run in Hget. rewrite lift_run in Hlift.
  rewrite http_put_run in Hput. rewrite raise_for_status_run in Hcheck.
  injection Hget as _ <-. injection Hlift as _ <-. injection Hput as _ <-.
  injection Hcheck as _ <-. injection Hrun as _ <-.
  cbn [calls]. by rewrite !fmap_app, <- app_assoc.
Qed.

Lemma save_document_ok_shape self case_id doc s s' :
  save_document self case_id ("cases/" +:+ case_id) doc s = (Ok tt, s') →
  call_shape <$> calls s'
  = (call_shape <$> calls s) ++ write_of (document_url self case_id doc).
Proof.
  unfold save_document. destruct doc as [doc_type doc_base64]. intros Hrun.
  apply bind_ok_inv in Hrun as (pdf & s1 & Hlift & Hrun).
  apply bind_ok_inv in Hrun as (r & s2 & Hfile & Hrun).
  rewrite lift_run in Hlift. injection Hlift as _ <-. injection Hrun as <-.
  by apply create_file_ok_shape in Hfile.
Qed.

Lemma for_each_ok_shape self case_id docs s s' :
  for_each docs (save_document self case_id ("cases/" +:+ case_id)) s
    = (Ok tt, s') →
  call_shape <$> calls s'
  = (call_shape <$> calls s)
    ++ flat_map (fun d => write_of (document_url self case_id d)) docs.
Proof.
  revert s. induction docs as [|d docs IH]; intros s; simpl.
  - intros [= <-]. by rewrite app_nil_r.
  - intros Hrun. apply bind_ok_inv in Hrun as ([] & s1 & Hdoc & Hrun).
    apply save_document_ok_shape in Hdoc. apply IH in Hrun.
    rewrite Hrun, Hdoc. by rewrite <- app_assoc.
Qed.

Lemma update_case_index_ok_shape self case_id sub now s s' :
  update_case_index self case_id sub now s = (Ok tt, s') →
  call_shape <$> calls s'
  = (call_shape <$> calls s) ++ write_of (contents_url self index_path).
Proof.
  unfold update_case_index. cbv zeta. intros Hrun.
  apply bind_ok_inv in Hrun as (g & s1 & Hget & Hrun).
  apply bind_ok_inv in Hrun as ([index_data token] & s2 & Hlift & Hrun).
  apply bind_ok_inv in Hrun as (entry & s3 & Hentry & Hrun).
  apply bind_ok_inv in Hrun as (index_data' & s4 & Happ & Hrun).
  apply bind_ok_inv in Hrun as (resp & s5 & Hput & Hrun).
  rewrite http_get_run in Hget. unfold lift in Hlift, Hentry, Happ.
  rewrite http_put_run in Hput. rewrite raise_for_status_run in Hrun.
  injection Hget as _ <-. injection Hlift as _ <-. injection Hentry as _ <-.
  injection Happ as _ <-. injection Hput as _ <-. injection Hrun as _ <-.
  cbn [calls]. by rewrite !fmap_app, <- app_assoc.
Qed.

(** X19: a submission that reports success has sent, in this order, a
    GET and a PUT for [case_data.json], a GET and a PUT for each
    document in the order of the request, and a GET and a PUT for the
    index: [2 * (documents + 2)] requests. It reports [documents + 1]
    files and the case directory as its path. *)
Theorem submit_case_success_trace self sub now s res s' :
  submit_case self sub now s = (Ok res, s') →
  success res = true →
  let case_id := resolve_case_id sub now in
  call_shape <$> calls s'
  = (call_shape <$> calls s)
    ++ write_of (contents_url self (("cases/" +:+ case_id) +:+ "/case_data.json"))
    ++ flat_map (fun d => write_of (document_url self case_id d))
         (documents sub)
    ++ write_of (contents_url self index_path) ∧
  files_created res = Some (length (documents sub) + 1) ∧
  github_path res = Some (("cases/" +:+ case_id) +:+ "/").
Proof.
  unfold submit_case, try_except. cbv zeta.
  match goal with |- context [match ?b s with _ => _ end] =>
    destruct (b s) as [[r|e] s1] eqn:Hbody end.
  2: { intros [= <- <-]. done. }
  intros [= <- <-] _.
  apply bind_ok_inv in Hbody as (r0 & s2 & Hrecord & Hbody).
  apply bind_ok_inv in Hbody as ([] & s3 & Hdocs & Hbody).
  apply bind_ok_inv in Hbody as ([] & s4 & Hindex & Hbody).
  injection Hbody as <- <-.
  apply create_file_ok_shape in Hrecord. apply for_each_ok_shape in Hdocs.
  apply update_case_index_ok_shape in Hindex.
  split; [|done]. rewrite Hindex, Hdocs, Hrecord. by rewrite <- !app_assoc.
Qed.
End MoreSubmitter.

Section MoreEndpoint.
Import GitHub.
Context {W : Type} `{Remote W} `{ExnText}.

Lemma submit_case_result self sub now (s : session W) :
  ∃ res s',
    submit_case self sub now s = (Ok res, s') ∧
    result_case_id res = Some (resolve_case_id sub now) ∧
    (success res = true → is_Some (github_path res)) ∧
    (success res = false → is_Some (error res)).
Proof.
  unfold submit_case, try_except.
  match goal with |- context [match ?b s with _ => _ end] =>
    destruct (b s) as [[res|e] s'] eqn:E end.
  - do 3 (apply bind_ok_inv in E as (? & ? & _ & E)).
    injection E as <- <-. eexists _, _. split; [done|]. simpl.
    split; [done|]. split; [eauto|done].
  - eexists _, _. split; [done|]. simpl.
    split; [done|]. split; [done|eauto].
Qed.

(** X20: the endpoint either answers with [success] true and the case
    id [submit_case] settled on, or raises a 500 whose detail starts
    with [Submission failed: ]; it never answers with [success] false.
    Without a token in the environment it raises at once, sends no
    request, and the detail wraps the text of its own 500 exception. *)
Theorem endpoint_outcomes environ submission now (s : session W) :
  let run := submit_case_to_github environ submission now s in
  ((∃ body,
       run.1 = Ok body ∧ resp_success body = true ∧
       resp_case_id body
         = Some (resolve_case_id (request_dict submission) now)) ∨
   (∃ e, run.1
         = Raise (HTTPException 500 ("Submission failed: " +:+ str_exn e)))) ∧
  (str_truthy (environ !! "GITHUB_TOKEN") = false →
   run = (Raise (HTTPException 500
                   ("Submission failed: "
                    +:+ str_exn (HTTPException 500
                                   "GitHub token not configured"))), s)).
Proof.
  cbv zeta. unfold submit_case_to_github, try_except. cbv zeta.
  destruct (str_truthy (environ !! "GITHUB_TOKEN")) eqn:Htoken; simpl.
  2: { split; [right; eauto|done]. }
  split; [|done].
  match goal with |- context [submit_case ?self ?sub now] =>
    destruct (submit_case_result self sub now s)
      as (res & s1 & Hsubmit & Hid & Hpath & Herror) end.
  rewrite (bind_ok _ _ _ _ _ Hsubmit).
  destruct (success res).
  - destruct (Hpath eq_refl) as [path Hp]. rewrite Hp. simpl.
    left. eexists. split; [reflexivity|]. by split.
  - destruct (Herror eq_refl) as [e He]. rewrite He. simpl. right. eauto.
Qed.
End MoreEndpoint.

Lemma index_update_keeps_entries_witness :
  ∃ p,
    GitHub.calls
      (GitHub.update_case_index Sample.submitter "HOU-2024-1" Sample.with_id
         Sample.now Sample.once).2
    = GitHub.calls Sample.once ++
      [GitHub.GET Sample.index_url (Ok Sample.index_found);
       GitHub.PUT Sample.index_url
         {| GitHub.message := "Update index with case " +:+ "HOU-2024-1";
            GitHub.content :=
              Base64 (JsonText (JObj (<["cases" :=
                JArr ([Sample.entry] ++ [Sample.entry])]>
                Sample.index_of_one)));
            GitHub.sha := if decide ("sha4" = EmptyString) then None
                          else Some "sha4" |} p].
Proof.
  apply (index_update_keeps_entries Sample.submitter "HOU-2024-1"
           Sample.with_id Sample.now Sample.once Sample.index_found
           (Repo.get Sample.index_url (GitHub.remote Sample.once)).2
           Sample.index_of_one [Sample.entry] "sha4" Sample.entry).
  - vm_compute. reflexivity.
  - reflexivity.
  - reflexivity.
  - reflexivity.
  - reflexivity.
  - vm_compute. reflexivity.
Defined.

Lemma index_update_without_index_witness :
  ∃ p,
    GitHub.calls
      (GitHub.update_case_index Sample.submitter "HOU-2024-1" Sample.with_id
         Sample.now (Repo.start Repo.empty_repo)).2
    = GitHub.calls (Repo.start Repo.empty_repo) ++
      [GitHub.GET Sample.index_url (Ok Sample.index_missing);
       GitHub.PUT Sample.index_url
         {| GitHub.message := "Update index with case " +:+ "HOU-2024-1";
            GitHub.content :=
              Base64 (JsonText (JObj (<["cases" := JArr [Sample.entry]]> ∅)));
            GitHub.sha := None |} p].
Proof.
  apply (index_update_without_index Sample.submitter "HOU-2024-1"
           Sample.with_id Sample.now (Repo.start Repo.empty_repo)
           Sample.index_missing Repo.empty_repo Sample.entry).
  - vm_compute. reflexivity.
  - vm_compute. discriminate.
  - vm_compute. reflexivity.
Defined.

Lemma submit_case_success_trace_witness :
  let run := Sample.submit Sample.with_id Sample.now
               (Repo.start Repo.empty_repo) in
  ∃ res,
    run.1 = Ok res ∧
    call_shape <$> GitHub.calls run.2
    = (call_shape <$> [])
      ++ write_of (Sample.contents_url "cases/HOU-2024-1/case_data.json")
      ++ flat_map (fun d => write_of
                              (document_url Sample.submitter "HOU-2024-1" d))
           Sample.three_documents
      ++ write_of Sample.index_url ∧
    GitHub.files_created res = Some 4 ∧
    GitHub.github_path res = Some "cases/HOU-2024-1/".
Proof.
  cbv zeta. eexists. split; [vm_compute; reflexivity|].
  apply (submit_case_success_trace Sample.submitter Sample.with_id Sample.now
           (Repo.start Repo.empty_repo) _
           (Sample.submit Sample.with_id Sample.now
              (Repo.start Repo.empty_repo)).2).
  - vm_compute. reflexivity.
  - vm_compute. reflexivity.
Defined.
